(** * VerificationRequest: the key-verification request state machine

    A shallow embedding of
    [src/crypto/verification/request/VerificationRequest.js]
    (matrix-js-sdk), together with the properties of its phase
    bookkeeping.

    Conventions of the embedding.
    - A JavaScript [Map] object is a record with its map data (what
      [get]/[set] reach) and its ordinary own properties (what [m[k]]
      reaches); this file never writes the latter.
    - A method that mutates [this] and may throw is a function from the
      request to an outcome and the request as the call left it.
    - [Date.now()] is an explicit argument; millisecond timestamps are
      integers.
    - [console.log] and [logger.log] calls have no effect on the request
      and are left out. *)

From Stdlib Require Import ZArith String List Bool Lia.
From stdpp Require Import base option gmap strings list fin_maps.
Import ListNotations.

Local Open Scope string_scope.
Local Open Scope list_scope.
Local Open Scope Z_scope.

(** ** Constants *)

Definition VERIFICATION_REQUEST_TIMEOUT : Z := 10 * 60 * 1000.
Definition VERIFICATION_REQUEST_MARGIN : Z := 3 * 1000.

Definition EVENT_PREFIX : string := "m.key.verification.".
Definition REQUEST_TYPE : string := EVENT_PREFIX +:+ "request".
Definition START_TYPE : string := EVENT_PREFIX +:+ "start".
Definition CANCEL_TYPE : string := EVENT_PREFIX +:+ "cancel".
Definition DONE_TYPE : string := EVENT_PREFIX +:+ "done".
Definition READY_TYPE : string := EVENT_PREFIX +:+ "ready".

(** The value held by [_phase] and by the [phase] field of a transition.
    The [PHASE_*] constants are numbers, but [_calculatePhaseTransitions]
    also stores a string there, so a phase is a JavaScript value of
    either kind; [===] on them is equality of constructors and payloads. *)
Inductive Phase : Type :=
| PhaseNum (n : Z)
| PhaseStr (s : string).

Global Instance Phase_eq_dec : EqDecision Phase.
Proof. solve_decision. Defined.

Definition PHASE_UNSENT : Phase := PhaseNum 1.
Definition PHASE_REQUESTED : Phase := PhaseNum 2.
Definition PHASE_READY : Phase := PhaseNum 3.
Definition PHASE_STARTED : Phase := PhaseNum 4.
Definition PHASE_CANCELLED : Phase := PhaseNum 5.
Definition PHASE_DONE : Phase := PhaseNum 6.

(** ** Collaborators *)

(** The content of an event.  [methods] is [Some l] exactly when
    [Array.isArray(content.methods)]; [from_device] is [Some s] exactly
    when [typeof content.from_device === "string"]. *)
Record Content : Type := mkContent {
  methods : option (list string);
  from_device : option string;
  method : option string;
  code : option string;
  reason : option string
}.

(** A [MatrixEvent]: [getContent()] may be null. *)
Record MatrixEvent : Type := mkEvent {
  getSender : string;
  getContent : option Content
}.

Record MatrixClient : Type := mkClient {
  getUserId : string;
  getDeviceId : string
}.

(** What [channel.send(type, content)] is called with. *)
Record Outbound : Type := mkOutbound {
  out_type : string;
  out_content : Content
}.

(** The channel: the counterparty's user id, the class-level predicate
    [canCreateRequest], and the messages handed to [send] so far (most
    recent first). *)
Record Channel : Type := mkChannel {
  userId : string;
  canCreateRequest : string -> bool;
  sent : list Outbound
}.

Definition send (type : string) (content : Content) (ch : Channel) : Channel :=
  {| userId := userId ch;
     canCreateRequest := canCreateRequest ch;
     sent := mkOutbound type content :: sent ch |}.

(** A verifier class of the method registry; [events] is the list of
    event types its instances want forwarded, when the class declares one. *)
Record VerifierCtor : Type := mkCtor {
  ctor_events : option (list string)
}.

(** A verifier instance: the constructor arguments it was built with, and
    what it has been asked to do since. *)
Record Verifier : Type := mkVerifier {
  v_method : string;
  v_userId : string;
  v_deviceId : option string;
  v_startEvent : option MatrixEvent;
  events : option (list string);
  v_handled : list MatrixEvent;
  v_cancelled : list (string * string)
}.

(** A JavaScript [Map]: [map_data] is reached by [get] and [set],
    [own_props] by property access [m[k]]. *)
Record JsMap : Type := mkJsMap {
  map_data : gmap string MatrixEvent;
  own_props : gmap string MatrixEvent
}.

Definition new_Map : JsMap := {| map_data := ∅; own_props := ∅ |}.
Definition Map_get (k : string) (m : JsMap) : option MatrixEvent := map_data m !! k.
Definition Map_set (k : string) (e : MatrixEvent) (m : JsMap) : JsMap :=
  {| map_data := <[k := e]> (map_data m); own_props := own_props m |}.
Definition prop_get (k : string) (m : JsMap) : option MatrixEvent := own_props m !! k.
Global Arguments Map_get : simpl never.
Global Arguments Map_set : simpl never.
Global Arguments prop_get : simpl never.

(** [{userId, deviceId}] as passed for [targetDevice]. *)
Record TargetDevice : Type := mkTarget {
  target_userId : string;
  target_deviceId : string
}.

(** ** The request object *)

Record VerificationRequest : Type := mkRequest {
  channel : Channel;
  _verificationMethods : list (string * VerifierCtor);
  _client : MatrixClient;
  _commonMethods : list string;
  _phase : Phase;
  _eventsByUs : JsMap;
  _eventsByThem : JsMap;
  _observeOnly : bool;
  _verifier : option Verifier;
  _initiatedByMe : option bool;
  _cancellingUserId : option string;
  _requestEvent : option MatrixEvent;
  _readyEvent : option MatrixEvent;
  emitted : list string
}.

(** Field assignments [this.f = v]. *)
Definition set_channel (v : Channel) (r : VerificationRequest) : VerificationRequest :=
  mkRequest v (_verificationMethods r) (_client r) (_commonMethods r) (_phase r)
    (_eventsByUs r) (_eventsByThem r) (_observeOnly r) (_verifier r)
    (_initiatedByMe r) (_cancellingUserId r) (_requestEvent r) (_readyEvent r) (emitted r).
Definition set_commonMethods (v : list string) (r : VerificationRequest) : VerificationRequest :=
  mkRequest (channel r) (_verificationMethods r) (_client r) v (_phase r)
    (_eventsByUs r) (_eventsByThem r) (_observeOnly r) (_verifier r)
    (_initiatedByMe r) (_cancellingUserId r) (_requestEvent r) (_readyEvent r) (emitted r).
Definition set_phase (v : Phase) (r : VerificationRequest) : VerificationRequest :=
  mkRequest (channel r) (_verificationMethods r) (_client r) (_commonMethods r) v
    (_eventsByUs r) (_eventsByThem r) (_observeOnly r) (_verifier r)
    (_initiatedByMe r) (_cancellingUserId r) (_requestEvent r) (_readyEvent r) (emitted r).
Definition set_eventsByUs (v : JsMap) (r : VerificationRequest) : VerificationRequest :=
  mkRequest (channel r) (_verificationMethods r) (_client r) (_commonMethods r) (_phase r)
    v (_eventsByThem r) (_observeOnly r) (_verifier r)
    (_initiatedByMe r) (_cancellingUserId r) (_requestEvent r) (_readyEvent r) (emitted r).
Definition set_eventsByThem (v : JsMap) (r : VerificationRequest) : VerificationRequest :=
  mkRequest (channel r) (_verificationMethods r) (_client r) (_commonMethods r) (_phase r)
    (_eventsByUs r) v (_observeOnly r) (_verifier r)
    (_initiatedByMe r) (_cancellingUserId r) (_requestEvent r) (_readyEvent r) (emitted r).
Definition set_observeOnly (v : bool) (r : VerificationRequest) : VerificationRequest :=
  mkRequest (channel r) (_verificationMethods r) (_client r) (_commonMethods r) (_phase r)
    (_eventsByUs r) (_eventsByThem r) v (_verifier r)
    (_initiatedByMe r) (_cancellingUserId r) (_requestEvent r) (_readyEvent r) (emitted r).
Definition set_verifier (v : option Verifier) (r : VerificationRequest) : VerificationRequest :=
  mkRequest (channel r) (_verificationMethods r) (_client r) (_commonMethods r) (_phase r)
    (_eventsByUs r) (_eventsByThem r) (_observeOnly r) v
    (_initiatedByMe r) (_cancellingUserId r) (_requestEvent r) (_readyEvent r) (emitted r).
Definition set_initiatedByMe (v : option bool) (r : VerificationRequest) : VerificationRequest :=
  mkRequest (channel r) (_verificationMethods r) (_client r) (_commonMethods r) (_phase r)
    (_eventsByUs r) (_eventsByThem r) (_observeOnly r) (_verifier r)
    v (_cancellingUserId r) (_requestEvent r) (_readyEvent r) (emitted r).
Definition set_cancellingUserId (v : option string) (r : VerificationRequest) : VerificationRequest :=
  mkRequest (channel r) (_verificationMethods r) (_client r) (_commonMethods r) (_phase r)
    (_eventsByUs r) (_eventsByThem r) (_observeOnly r) (_verifier r)
    (_initiatedByMe r) v (_requestEvent r) (_readyEvent r) (emitted r).
Definition emit (name : string) (r : VerificationRequest) : VerificationRequest :=
  mkRequest (channel r) (_verificationMethods r) (_client r) (_commonMethods r) (_phase r)
    (_eventsByUs r) (_eventsByThem r) (_observeOnly r) (_verifier r)
    (_initiatedByMe r) (_cancellingUserId r) (_requestEvent r) (_readyEvent r)
    (name :: emitted r).

(** ** Methods that mutate the request and may throw *)

Inductive JsError : Type :=
| UnknownMethodError   (* newUnknownMethodError() *)
| NoTargetError        (* Error("can't determine who the verifier should be targeted at...") *)
| TypeError.           (* a property read or a call on null/undefined *)

Inductive Outcome (A : Type) : Type :=
| Returned (a : A)
| Thrown (e : JsError).
Arguments Returned {A} a.
Arguments Thrown {A} e.

(** A method body: the request it is called on goes in, the completion
    and the request as the call left it come out. *)
Definition Method (A : Type) : Type :=
  VerificationRequest -> Outcome A * VerificationRequest.

Global Instance Method_ret : MRet Method :=
  fun A a this => (Returned a, this).
Global Instance Method_bind : MBind Method :=
  fun A B k m this =>
    match m this with
    | (Returned a, this') => k a this'
    | (Thrown e, this') => (Thrown e, this')
    end.

Definition throw {A : Type} (e : JsError) : Method A :=
  fun this => (Thrown e, this).
Definition read {A : Type} (f : VerificationRequest -> A) : Method A :=
  fun this => (Returned (f this), this).
Definition assign (f : VerificationRequest -> VerificationRequest) : Method unit :=
  fun this => (Returned tt, f this).
Definition when (b : bool) (m : Method unit) : Method unit :=
  if b then m else mret tt.

(** [for (const x of xs) body(x)]: stops at the first throw. *)
Fixpoint for_of {A : Type} (xs : list A) (body : A -> Method unit) : Method unit :=
  match xs with
  | [] => mret tt
  | x :: xs' => body x ;; for_of xs' body
  end.

(** Dereferencing a possibly undefined value. *)
Definition deref {A : Type} (o : option A) : Method A :=
  match o with
  | Some a => mret a
  | None => throw TypeError
  end.

(** ** The constructor and the getters *)

Definition _setPhase (phase : Phase) (notify : bool) : Method unit :=
  assign (set_phase phase) ;;
  when notify (assign (emit "change")).

Definition constructor (channel : Channel)
    (verificationMethods : list (string * VerifierCtor))
    (client : MatrixClient) : VerificationRequest :=
  {| channel := channel;
     _verificationMethods := verificationMethods;
     _client := client;
     _commonMethods := [];
     _phase := PHASE_UNSENT;
     _eventsByUs := new_Map;
     _eventsByThem := new_Map;
     _observeOnly := false;
     _verifier := None;
     _initiatedByMe := None;
     _cancellingUserId := None;
     _requestEvent := None;
     _readyEvent := None;
     emitted := [] |}.

Definition otherUserId (this : VerificationRequest) : string :=
  userId (channel this).

(** The getters on the phase. *)
Definition requested (this : VerificationRequest) : bool :=
  bool_decide (_phase this = PHASE_REQUESTED).
Definition cancelled (this : VerificationRequest) : bool :=
  bool_decide (_phase this = PHASE_CANCELLED).
Definition ready (this : VerificationRequest) : bool :=
  bool_decide (_phase this = PHASE_READY).
Definition started (this : VerificationRequest) : bool :=
  bool_decide (_phase this = PHASE_STARTED).
Definition done (this : VerificationRequest) : bool :=
  bool_decide (_phase this = PHASE_DONE).
Definition pending (this : VerificationRequest) : bool :=
  negb (bool_decide (_phase this = PHASE_UNSENT))
  && negb (bool_decide (_phase this = PHASE_DONE))
  && negb (bool_decide (_phase this = PHASE_CANCELLED)).

(** [_verificationMethods.has(m)], [.get(m)] and [[...keys()]]. *)
Definition methods_get (m : string) (reg : list (string * VerifierCtor)) : option VerifierCtor :=
  snd <$> List.find (fun kv => bool_decide (fst kv = m)) reg.
Definition methods_has (m : string) (reg : list (string * VerifierCtor)) : bool :=
  bool_decide (is_Some (methods_get m reg)).
Definition methods_keys (reg : list (string * VerifierCtor)) : list string :=
  List.map fst reg.

Definition _wasSentByOwnUser (event : MatrixEvent) (this : VerificationRequest) : bool :=
  bool_decide (getSender event = getUserId (_client this)).

Definition _wasSentByOwnDevice (event : MatrixEvent) (this : VerificationRequest) : bool :=
  if negb (_wasSentByOwnUser event this) then false
  else
    match getContent event with
    | None => false
    | Some content =>
        if negb (bool_decide (from_device content = Some (getDeviceId (_client this))))
        then false
        else true
    end.

Definition _getEventByEither (type : string) (this : VerificationRequest) : option MatrixEvent :=
  match Map_get type (_eventsByThem this) with
  | Some e => Some e
  | None => Map_get type (_eventsByUs this)
  end.

Definition _getEventByOther (type : string) (notSender : string)
    (this : VerificationRequest) : option MatrixEvent :=
  if bool_decide (notSender = getUserId (_client this))
  then Map_get type (_eventsByThem this)
  else Map_get type (_eventsByUs this).

Definition _getEventBy (type : string) (sender : string)
    (this : VerificationRequest) : option MatrixEvent :=
  if bool_decide (sender = getUserId (_client this))
  then Map_get type (_eventsByUs this)
  else Map_get type (_eventsByThem this).

(** ** Stateless validation *)

(** A JavaScript number, as far as [Number.isFinite] tells them apart. *)
Inductive JsNumber : Type :=
| Finite (z : Z)
| NaN
| Infinity (negative : bool).

(** [Number.isFinite(timestamp)]; [None] is an absent ([undefined])
    timestamp. *)
Definition Number_isFinite (timestamp : option JsNumber) : bool :=
  match timestamp with
  | Some (Finite _) => true
  | _ => false
  end.

(** [validateEvent(type, event, timestamp, client)], with [now] for
    [Date.now()].  Reading a field of a null content throws. *)
Definition validateEvent (now : Z) (type : string) (event : MatrixEvent)
    (timestamp : option JsNumber) (client : MatrixClient) : Outcome bool :=
  let content := getContent event in
  if negb (String.prefix EVENT_PREFIX type) then Returned false
  else
    let bad_methods : Outcome bool :=
      if bool_decide (type = REQUEST_TYPE) || bool_decide (type = READY_TYPE) then
        match content with
        | None => Thrown TypeError
        | Some c => Returned (negb (bool_decide (is_Some (methods c))))
        end
      else Returned false in
    match bad_methods with
    | Thrown e => Thrown e
    | Returned true => Returned false
    | Returned false =>
        let bad_device : Outcome bool :=
          if bool_decide (type = REQUEST_TYPE) || bool_decide (type = READY_TYPE)
             || bool_decide (type = START_TYPE) then
            match content with
            | None => Thrown TypeError
            | Some c =>
                Returned match from_device c with
                         | None => true
                         | Some d => bool_decide (String.length d = 0%nat)
                         end
            end
          else Returned false in
        match bad_device with
        | Thrown e => Thrown e
        | Returned true => Returned false
        | Returned false =>
            match timestamp with
            | Some (Finite ts) =>
                let elapsed := now - ts in
                if (elapsed >? VERIFICATION_REQUEST_TIMEOUT - VERIFICATION_REQUEST_MARGIN)
                   || (elapsed <? - (VERIFICATION_REQUEST_TIMEOUT / 2))
                then Returned false
                else Returned true
            | _ => Returned true
            end
        end
    end.

(** ** Phase transitions *)

Record Transition : Type := mkTransition {
  phase : Phase;
  event : option MatrixEvent
}.

(** [transitions[transitions.length - 1].phase]; the list built by
    [_calculatePhaseTransitions] is never empty. *)
Definition top_phase (transitions : list Transition) : Phase :=
  phase (List.last transitions (mkTransition PHASE_UNSENT None)).

Definition _calculatePhaseTransitions (this : VerificationRequest) : list Transition :=
  let transitions := [mkTransition PHASE_UNSENT None] in
  match _getEventByEither CANCEL_TYPE this with
  | Some cancelEvent =>
      transitions ++ [mkTransition PHASE_CANCELLED (Some cancelEvent)]
  | None =>
      let requestEvent := _getEventByEither REQUEST_TYPE this in
      let transitions :=
        match requestEvent with
        | Some requestEvent =>
            let transitions :=
              transitions ++ [mkTransition PHASE_REQUESTED (Some requestEvent)] in
            match _getEventByOther READY_TYPE (getSender requestEvent) this with
            | Some readyEvent =>
                transitions ++ [mkTransition PHASE_READY (Some readyEvent)]
            | None => transitions
            end
        | None => transitions
        end in
      let transitions :=
        match _getEventByEither START_TYPE this with
        | Some startEvent =>
            let fromRequestPhase :=
              bool_decide (top_phase transitions = PHASE_REQUESTED) &&
              (* the top phase is PHASE_REQUESTED only when requestEvent is set *)
              match requestEvent with
              | Some requestEvent =>
                  negb (bool_decide (getSender requestEvent = getSender startEvent))
              | None => false
              end in
            let fromUnsentPhase :=
              bool_decide (top_phase transitions = PHASE_UNSENT) &&
              canCreateRequest (channel this) START_TYPE in
            if fromRequestPhase || bool_decide (top_phase transitions = PHASE_READY)
               || fromUnsentPhase
            then transitions ++ [mkTransition (PhaseStr START_TYPE) (Some startEvent)]
            else transitions
        | None => transitions
        end in
      let ourDoneEvent := prop_get DONE_TYPE (_eventsByUs this) in
      let theirDoneEvent := prop_get DONE_TYPE (_eventsByThem this) in
      if bool_decide (is_Some ourDoneEvent) && bool_decide (is_Some theirDoneEvent)
         && bool_decide (top_phase transitions = PhaseStr START_TYPE)
      then transitions ++ [mkTransition PHASE_DONE None]
      else transitions
  end.

(** ** Verifier creation *)

Definition _getVerifierTarget (startEvent : option MatrixEvent)
    (targetDevice : option TargetDevice) (this : VerificationRequest)
    : Outcome (string * option string) :=
  match targetDevice with
  | Some targetDevice =>
      Returned (target_userId targetDevice, Some (target_deviceId targetDevice))
  | None =>
      let usable (e : option MatrixEvent) : option MatrixEvent :=
        match e with
        | Some e => if negb (_wasSentByOwnDevice e this) then Some e else None
        | None => None
        end in
      let targetEvent :=
        match usable startEvent with
        | Some e => Some e
        | None =>
            match usable (_readyEvent this) with
            | Some e => Some e
            | None => usable (_requestEvent this)
            end
        end in
      match targetEvent with
      | None => Thrown NoTargetError
      | Some targetEvent =>
          let userId := getSender targetEvent in
          let deviceId :=
            match getContent targetEvent with
            | Some content => from_device content
            | None => None
            end in
          Returned (userId, deviceId)
      end
  end.

(** [_createVerifier(method, startEvent, targetDevice)]; [None] is the
    [undefined] it returns for a method without a constructor. *)
Definition _createVerifier (method : option string) (startEvent : option MatrixEvent)
    (targetDevice : option TargetDevice) (this : VerificationRequest)
    : Outcome (option Verifier) :=
  let initiatedByMe :=
    match startEvent with
    | None => true
    | Some e => _wasSentByOwnDevice e this
    end in
  match _getVerifierTarget startEvent targetDevice this with
  | Thrown e => Thrown e
  | Returned (userId, deviceId) =>
      match method ≫= fun m => (m,.) <$> methods_get m (_verificationMethods this) with
      | None => Returned None
      | Some (m, VerifierCtor) =>
          Returned (Some {| v_method := m;
                            v_userId := userId;
                            v_deviceId := deviceId;
                            v_startEvent := if initiatedByMe then None else startEvent;
                            events := ctor_events VerifierCtor;
                            v_handled := [];
                            v_cancelled := [] |})
      end
  end.

(** Lifting a computation that only reads the request. *)
Definition call {A : Type} (f : VerificationRequest -> Outcome A) : Method A :=
  fun this => (f this, this).

(** [verifier.handleEvent(event)] and [verifier.cancel(error)]. *)
Definition Verifier_handleEvent (e : MatrixEvent) (v : Verifier) : Verifier :=
  mkVerifier (v_method v) (v_userId v) (v_deviceId v) (v_startEvent v) (events v)
    (v_handled v ++ [e]) (v_cancelled v).
Definition Verifier_cancel (code reason : string) (v : Verifier) : Verifier :=
  mkVerifier (v_method v) (v_userId v) (v_deviceId v) (v_startEvent v) (events v)
    (v_handled v) (v_cancelled v ++ [(code, reason)]).

(** [Array.prototype.findIndex] and [Array.prototype.slice(start)]. *)
Fixpoint findIndex {A : Type} (p : A -> bool) (l : list A) : Z :=
  match l with
  | [] => -1
  | x :: l' =>
      if p x then 0
      else let i := findIndex p l' in if i <? 0 then -1 else i + 1
  end.

Definition slice {A : Type} (start : Z) (l : list A) : list A :=
  if start <? 0
  then drop (Z.to_nat (Z.max 0 (Z.of_nat (length l) + start))) l
  else drop (Z.to_nat start) l.

Section Machine.

(** Two methods are called on [this] that neither the class nor the
    [EventEmitter] it extends defines.  Both are taken as they are
    called, so that whatever comes to define them is covered:
    [_hasValidPreStartPhase()] as a read of the request that returns a
    boolean or throws, [_handleStart(transition)] as a method.  On the
    class as it stands both are calls of [undefined], which throw a
    TypeError: [hasValidPreStartPhase_undefined] and
    [handleStart_undefined] below. *)
Variable _hasValidPreStartPhase : VerificationRequest -> Outcome bool.
Variable _handleStart : Transition -> Method unit.

Definition _transitionToPhase (transition : Transition) : Method unit :=
  let phase := phase transition in
  let event := event transition in
  (* get common methods *)
  when (bool_decide (phase = PHASE_REQUESTED) || bool_decide (phase = PHASE_READY))
    (event ← deref event;
     own ← read (_wasSentByOwnDevice event);
     when (negb own)
       (content ← deref (getContent event);
        ms ← deref (methods content);
        this ← read id;
        assign (set_commonMethods
                  (List.filter (fun m => methods_has m (_verificationMethods this)) ms)))) ;;
  (* detect if we're not a party in the request, and we should just observe *)
  observeOnly ← read _observeOnly;
  when (negb observeOnly)
    (if bool_decide (phase = PHASE_REQUESTED) then
       event ← deref event;
       this ← read id;
       when (_wasSentByOwnUser event this && negb (_wasSentByOwnDevice event this))
         (assign (set_observeOnly true))
     else if bool_decide (phase = PHASE_STARTED) || bool_decide (phase = PHASE_READY) then
       event ← deref event;
       own ← read (_wasSentByOwnDevice event);
       assign (set_observeOnly (negb own))
     else mret tt) ;;
  (* create verifier *)
  when (bool_decide (phase = PHASE_STARTED))
    (event ← deref event;
     content ← deref (getContent event);
     this ← read id;
     when (negb (bool_decide (is_Some (_verifier this))) && negb (_observeOnly this))
       (v ← call (_createVerifier (method content) (Some event) None);
        assign (set_verifier v)) ;;
     _handleStart transition).

(** [handleEvent(type, event, isLiveEvent)]. *)
Definition handleEvent (type : string) (event : MatrixEvent) (isLiveEvent : bool)
    : Method unit :=
  (* don't send out events for historical requests *)
  when (negb isLiveEvent) (assign (set_observeOnly true)) ;;
  this ← read id;
  let sender := getSender event in
  let isOurs := bool_decide (sender = getUserId (_client this)) in
  let isTheirs := bool_decide (sender = otherUserId this) in
  (if isOurs then assign (set_eventsByUs (Map_set type event (_eventsByUs this)))
   else if isTheirs then assign (set_eventsByThem (Map_set type event (_eventsByThem this)))
   else mret tt) ;;
  transitions ← read _calculatePhaseTransitions;
  this ← read id;
  let existingIdx := findIndex (fun t => bool_decide (phase t = _phase this)) transitions in
  (* trim off phases we already went through, if any *)
  let newTransitions := slice (existingIdx + 1) transitions in
  (* transition to all new phases *)
  for_of newTransitions _transitionToPhase ;;
  (* only pass events from the other side to the verifier *)
  this ← read id;
  match _verifier this with
  | Some verifier =>
      when (bool_decide (sender = otherUserId this) &&
            (bool_decide (type = CANCEL_TYPE) ||
             match events verifier with
             | Some evs => bool_decide (type ∈ evs)
             | None => false
             end))
        (assign (set_verifier (Some (Verifier_handleEvent event verifier))))
  | None => mret tt
  end ;;
  match last newTransitions with
  | Some lastTransition => _setPhase (phase lastTransition) true
  | None => mret tt
  end.

(** ** Outbound calls

    For the [async] methods the model is the part that runs up to and
    including the call of [channel.send]. *)

Definition beginKeyVerification (method : string) (targetDevice : option TargetDevice)
    : Method (option Verifier) :=
  this ← read id;
  when (negb (_observeOnly this) && negb (bool_decide (is_Some (_verifier this))))
    (valid ← call _hasValidPreStartPhase;
     when valid
       ((if negb (bool_decide (length (_commonMethods this) = 0%nat)) &&
            negb (bool_decide (method ∈ _commonMethods this))
         then throw UnknownMethodError
         else mret tt) ;;
        v ← call (_createVerifier (Some method) None targetDevice);
        assign (set_verifier v) ;;
        match v with
        | None => throw UnknownMethodError
        | Some _ => mret tt
        end)) ;;
  read _verifier.

Definition sendRequest : Method unit :=
  this ← read id;
  when (negb (_observeOnly this) && bool_decide (_phase this = PHASE_UNSENT))
    (assign (set_initiatedByMe (Some true)) ;;
     let methods := methods_keys (_verificationMethods this) in
     assign (fun this =>
       set_channel (send REQUEST_TYPE (mkContent (Some methods) None None None None)
                      (channel this)) this)).

Definition cancel (reason code : string) : Method unit :=
  this ← read id;
  when (negb (_observeOnly this) && negb (bool_decide (_phase this = PHASE_CANCELLED)))
    match _verifier this with
    | Some verifier =>
        assign (set_verifier (Some (Verifier_cancel code reason verifier)))
    | None =>
        assign (set_cancellingUserId (Some (getUserId (_client this)))) ;;
        assign (fun this =>
          set_channel (send CANCEL_TYPE (mkContent None None None (Some code) (Some reason))
                         (channel this)) this)
    end.

(** [cancel()] with the default reason and code. *)
Definition cancel_default : Method unit := cancel "User declined" "m.user".

Definition accept : Method unit :=
  this ← read id;
  when (negb (_observeOnly this) && bool_decide (_phase this = PHASE_REQUESTED)
        && negb (bool_decide (_initiatedByMe this = Some true)))
    (let methods := methods_keys (_verificationMethods this) in
     assign (fun this =>
       set_channel (send READY_TYPE (mkContent (Some methods) None None None None)
                      (channel this)) this)).

End Machine.

(** ** The two absent methods

    As the class stands, [this._hasValidPreStartPhase()] and
    [this._handleStart(transition)] call a property that is [undefined]:
    the call throws a TypeError and changes nothing. *)

Definition hasValidPreStartPhase_undefined (this : VerificationRequest) : Outcome bool :=
  Thrown TypeError.
Definition handleStart_undefined (transition : Transition) : Method unit :=
  throw TypeError.

(** Stand-ins, for closed examples that are to show what a definition of
    the two methods in line with the spec would do. *)

(** Modelled from the spec: [_handleStart] is called by
    [_transitionToPhase] but the class does not define it.  On reaching
    Started the spec has the request "deliver the causing message itself
    to the freshly created verifier". *)
Definition handleStart_spec (transition : Transition) : Method unit :=
  this ← read id;
  match _verifier this, event transition with
  | Some verifier, Some e =>
      assign (set_verifier (Some (Verifier_handleEvent e verifier)))
  | _, _ => mret tt
  end.

(** Modelled from the spec: [_hasValidPreStartPhase] is called by
    [beginKeyVerification] but the class does not define it.  The spec
    speaks of a request that "has already reached a phase where method
    negotiation is known (Requested/Ready/Started)". *)
Definition hasValidPreStartPhase_spec (this : VerificationRequest) : Outcome bool :=
  Returned (bool_decide (_phase this = PHASE_REQUESTED)
            || bool_decide (_phase this = PHASE_READY)
            || bool_decide (_phase this = PHASE_STARTED)).

(** ** A session between two users

    Alice's phone runs the client; Bob is the counterparty of an in-room
    channel, which cannot open a request with a start message. *)
Module Example.

Definition alice : MatrixClient := mkClient "@alice:example.org" "ALICEPHONE".
Definition to_bob : Channel := mkChannel "@bob:example.org" (fun _ => false) [].
Definition registry : list (string * VerifierCtor) :=
  [("m.sas.v1", mkCtor (Some ["m.key.verification.accept"; "m.key.verification.key";
                              "m.key.verification.mac"]))].
Definition bobs_laptop : TargetDevice := mkTarget "@bob:example.org" "BOBLAPTOP".

Definition request_by_bob : MatrixEvent :=
  mkEvent "@bob:example.org"
    (Some (mkContent (Some ["m.sas.v1"]) (Some "BOBLAPTOP") None None None)).
Definition qr_request_by_bob : MatrixEvent :=
  mkEvent "@bob:example.org"
    (Some (mkContent (Some ["m.qr_code.show.v1"]) (Some "BOBLAPTOP") None None None)).
Definition ready_by_alice : MatrixEvent :=
  mkEvent "@alice:example.org"
    (Some (mkContent (Some ["m.sas.v1"]) (Some "ALICEPHONE") None None None)).
Definition start_by_bob : MatrixEvent :=
  mkEvent "@bob:example.org"
    (Some (mkContent None (Some "BOBLAPTOP") (Some "m.sas.v1") None None)).
Definition done_by_alice : MatrixEvent :=
  mkEvent "@alice:example.org" (Some (mkContent None None None None None)).
Definition done_by_bob : MatrixEvent :=
  mkEvent "@bob:example.org" (Some (mkContent None None None None None)).
Definition cancel_by_bob : MatrixEvent :=
  mkEvent "@bob:example.org"
    (Some (mkContent None None None (Some "m.user") (Some "User declined"))).
Definition request_by_alices_phone : MatrixEvent :=
  mkEvent "@alice:example.org"
    (Some (mkContent (Some ["m.sas.v1"]) (Some "ALICEPHONE") None None None)).
Definition request_by_alices_tablet : MatrixEvent :=
  mkEvent "@alice:example.org"
    (Some (mkContent (Some ["m.sas.v1"]) (Some "ALICETABLET") None None None)).

(** A new request object on Alice's phone. *)
Definition fresh : VerificationRequest := constructor to_bob registry alice.

End Example.

(** ** Reachable requests *)

(** An inbound message as the channels hand it over: the symbolic type,
    the event, and whether it is live. *)
Definition Inbound : Type := string * MatrixEvent * bool.

(** The message was let through by [validateEvent] for the client. *)
Definition accepted (client : MatrixClient) (type : string) (event : MatrixEvent) : Prop :=
  exists now timestamp, validateEvent now type event timestamp client = Returned true.

Section Reachability.

Variable _hasValidPreStartPhase : VerificationRequest -> Outcome bool.
Variable _handleStart : Transition -> Method unit.

(** One call on the request by its owner: an accepted inbound message, or
    one of the outbound calls.  The request is kept as the call left it,
    also when the call threw. *)
Inductive call_on (r : VerificationRequest)
    : option (string * MatrixEvent) -> VerificationRequest -> Prop :=
| call_handleEvent type event isLiveEvent :
    accepted (_client r) type event ->
    call_on r (Some (type, event)) (snd (handleEvent _handleStart type event isLiveEvent r))
| call_beginKeyVerification method targetDevice :
    call_on r None (snd (beginKeyVerification _hasValidPreStartPhase method targetDevice r))
| call_sendRequest :
    call_on r None (snd (sendRequest r))
| call_cancel reason code :
    call_on r None (snd (cancel reason code r))
| call_accept :
    call_on r None (snd (accept r)).

(** [reachable history r]: [r] is a constructed request after a series of
    calls, [history] the inbound messages handled on the way (latest
    first). *)
Inductive reachable : list (string * MatrixEvent) -> VerificationRequest -> Prop :=
| reachable_new channel verificationMethods client :
    reachable [] (constructor channel verificationMethods client)
| reachable_call history r handled r' :
    reachable history r ->
    call_on r handled r' ->
    reachable (from_option (fun m => [m]) [] handled ++ history) r'.

(** Handling a series of inbound messages, one after the other; a throw
    does not keep later messages from being delivered. *)
Fixpoint handleEvents (msgs : list Inbound) (r : VerificationRequest) : VerificationRequest :=
  match msgs with
  | [] => r
  | (type, event, isLiveEvent) :: rest =>
      handleEvents rest (snd (handleEvent _handleStart type event isLiveEvent r))
  end.

End Reachability.

(** ** The steps of [handleEvent], named *)

(** The request after the first two statements of [handleEvent]: the
    observe-only override for historical events and the bookkeeping. *)
Definition recorded (type : string) (event : MatrixEvent) (isLiveEvent : bool)
    (r : VerificationRequest) : VerificationRequest :=
  let r := if isLiveEvent then r else set_observeOnly true r in
  if bool_decide (getSender event = getUserId (_client r))
  then set_eventsByUs (Map_set type event (_eventsByUs r)) r
  else if bool_decide (getSender event = otherUserId r)
  then set_eventsByThem (Map_set type event (_eventsByThem r)) r
  else r.

(** The [newTransitions] of [handleEvent], on the request with the event
    recorded. *)
Definition newTransitions (this : VerificationRequest) : list Transition :=
  let transitions := _calculatePhaseTransitions this in
  let existingIdx := findIndex (fun t => bool_decide (phase t = _phase this)) transitions in
  slice (existingIdx + 1) transitions.

(** The hand-over of the event to an existing verifier. *)
Definition forwarded (type : string) (event : MatrixEvent)
    (r : VerificationRequest) : VerificationRequest :=
  match _verifier r with
  | Some verifier =>
      if bool_decide (getSender event = otherUserId r) &&
         (bool_decide (type = CANCEL_TYPE) ||
          match events verifier with
          | Some evs => bool_decide (type ∈ evs)
          | None => false
          end)
      then set_verifier (Some (Verifier_handleEvent event verifier)) r
      else r
  | None => r
  end.

(** The closing [_setPhase] of [handleEvent]. *)
Definition phase_set (new : list Transition) (r : VerificationRequest) : VerificationRequest :=
  match last new with
  | Some lastTransition => emit "change" (set_phase (phase lastTransition) r)
  | None => r
  end.

(** The fields [_transitionToPhase] writes short of [PHASE_STARTED]. *)
Definition negotiated (commonMethods : list string) (observeOnly : bool)
    (r : VerificationRequest) : VerificationRequest :=
  set_observeOnly observeOnly (set_commonMethods commonMethods r).

(** What [_transitionToPhase] reads of a transition short of
    [PHASE_STARTED]: a request or ready transition carries an event with
    a method list. *)
Definition applicable (t : Transition) : Prop :=
  phase t ≠ PHASE_STARTED ∧
  (phase t = PHASE_REQUESTED ∨ phase t = PHASE_READY →
   ∃ e c l, event t = Some e ∧ getContent e = Some c ∧ methods c = Some l).

(** Every request or ready event on record carries a method list. *)
Definition methods_on_record (r : VerificationRequest) : Prop :=
  ∀ k e, k = REQUEST_TYPE ∨ k = READY_TYPE →
         Map_get k (_eventsByUs r) = Some e ∨ Map_get k (_eventsByThem r) = Some e →
         ∃ c l, getContent e = Some c ∧ methods c = Some l.

(** What the two maps of a reachable request hold, given the inbound
    messages handled so far. *)
Record on_record (history : list (string * MatrixEvent)) (r : VerificationRequest) : Prop := {
  rec_props_us : own_props (_eventsByUs r) = ∅;
  rec_props_them : own_props (_eventsByThem r) = ∅;
  rec_sender_us : ∀ k e, Map_get k (_eventsByUs r) = Some e →
                  getSender e = getUserId (_client r);
  rec_sender_them : ∀ k e, Map_get k (_eventsByThem r) = Some e →
                    getSender e = otherUserId r ∧ getSender e ≠ getUserId (_client r);
  rec_methods : methods_on_record r;
  rec_history : ∀ k e, (k, e) ∈ history →
                (getSender e = getUserId (_client r) → is_Some (Map_get k (_eventsByUs r))) ∧
                (getSender e ≠ getUserId (_client r) → getSender e = otherUserId r →
                 is_Some (Map_get k (_eventsByThem r)))
}.

(** The bookkeeping of a reachable request: the maps are as above, and
    the recorded phase is the last one of the recomputed transitions. *)
Definition bookkeeping (history : list (string * MatrixEvent)) (r : VerificationRequest) : Prop :=
  on_record history r ∧ _phase r = top_phase (_calculatePhaseTransitions r).

(** [r'] has the client, the channel's identity and the bookkeeping maps
    of [r]. *)
Definition kept (r r' : VerificationRequest) : Prop :=
  _client r' = _client r ∧
  userId (channel r') = userId (channel r) ∧
  canCreateRequest (channel r') = canCreateRequest (channel r) ∧
  _eventsByUs r' = _eventsByUs r ∧
  _eventsByThem r' = _eventsByThem r.

(** The ten shapes the transition list can take, as phases. *)
Definition shapes : list (list Phase) :=
  [ [PHASE_UNSENT; PHASE_CANCELLED];
    [PHASE_UNSENT];
    [PHASE_UNSENT; PHASE_REQUESTED];
    [PHASE_UNSENT; PHASE_REQUESTED; PHASE_READY];
    [PHASE_UNSENT; PhaseStr START_TYPE];
    [PHASE_UNSENT; PHASE_REQUESTED; PhaseStr START_TYPE];
    [PHASE_UNSENT; PHASE_REQUESTED; PHASE_READY; PhaseStr START_TYPE];
    [PHASE_UNSENT; PhaseStr START_TYPE; PHASE_DONE];
    [PHASE_UNSENT; PHASE_REQUESTED; PhaseStr START_TYPE; PHASE_DONE];
    [PHASE_UNSENT; PHASE_REQUESTED; PHASE_READY; PhaseStr START_TYPE; PHASE_DONE] ].

(** [newTransitions], on phases alone. *)
Definition new_phases (p : Phase) (ps : list Phase) : list Phase :=
  slice (findIndex (fun q => bool_decide (q = p)) ps + 1) ps.

(** Two requests whose bookkeeping holds events of the same senders under
    the same types, for the same client and channel class. *)
Definition same_senders (r r' : VerificationRequest) : Prop :=
  _client r' = _client r ∧
  canCreateRequest (channel r') = canCreateRequest (channel r) ∧
  own_props (_eventsByUs r') = own_props (_eventsByUs r) ∧
  own_props (_eventsByThem r') = own_props (_eventsByThem r) ∧
  (∀ k, getSender <$> Map_get k (_eventsByUs r') = getSender <$> Map_get k (_eventsByUs r)) ∧
  (∀ k, getSender <$> Map_get k (_eventsByThem r') = getSender <$> Map_get k (_eventsByThem r)).

(** [r'] has the phase, the notifications, the bookkeeping, the common
    methods, the observe-only flag and the two event references of [r]. *)
Definition unmoved (r r' : VerificationRequest) : Prop :=
  _phase r' = _phase r ∧
  emitted r' = emitted r ∧
  _eventsByUs r' = _eventsByUs r ∧
  _eventsByThem r' = _eventsByThem r ∧
  _commonMethods r' = _commonMethods r ∧
  _observeOnly r' = _observeOnly r ∧
  _requestEvent r' = _requestEvent r ∧
  _readyEvent r' = _readyEvent r.

(** The verifier [_createVerifier] builds for a method of the registry. *)
Definition new_verifier (method : string) (ctor : VerifierCtor) (userId : string)
    (deviceId : option string) (startEvent : option MatrixEvent) : Verifier :=
  {| v_method := method;
     v_userId := userId;
     v_deviceId := deviceId;
     v_startEvent := startEvent;
     events := ctor_events ctor;
     v_handled := [];
     v_cancelled := [] |}.


(** ** More messages of the session

    Further messages between Alice and Bob, and one by a third user. *)

Module Scenario.

Definition ready_by_bob : MatrixEvent :=
  mkEvent "@bob:example.org"
    (Some (mkContent (Some ["m.sas.v1"]) (Some "BOBLAPTOP") None None None)).
Definition cancel_by_alice : MatrixEvent :=
  mkEvent "@alice:example.org"
    (Some (mkContent None None None (Some "m.user") (Some "User declined"))).
Definition request_by_carol : MatrixEvent :=
  mkEvent "@carol:example.org"
    (Some (mkContent (Some ["m.sas.v1"]) (Some "CAROLPHONE") None None None)).
Definition request_without_methods : MatrixEvent :=
  mkEvent "@bob:example.org" (Some (mkContent (Some []) (Some "BOBLAPTOP") None None None)).
Definition start_without_content : MatrixEvent :=
  mkEvent "@bob:example.org" None.
Definition sas : VerifierCtor :=
  mkCtor (Some ["m.key.verification.accept"; "m.key.verification.key";
                "m.key.verification.mac"]).

(** Alice's request after Bob's live request message. *)
Definition requested_by_bob : VerificationRequest :=
  snd (handleEvent handleStart_spec REQUEST_TYPE Example.request_by_bob true Example.fresh).

(** The same, with the two absent methods as the class has them. *)
Definition requested_as_is : VerificationRequest :=
  snd (handleEvent handleStart_undefined REQUEST_TYPE Example.request_by_bob true
         Example.fresh).

(** Alice's request after her own request message and Bob's ready
    message. *)
Definition readied_by_bob : VerificationRequest :=
  handleEvents handleStart_spec
    [(REQUEST_TYPE, Example.request_by_alices_phone, true);
     (READY_TYPE, ready_by_bob, true)] Example.fresh.

End Scenario.

(** * Properties *)

(** Unfolds the plumbing of [Method]. *)
Ltac run :=
  unfold when, call, read, assign, deref, throw, mbind, Method_bind, mret, Method_ret in *.

(** ** The validity window *)

(** C8.  For a message that the other rules let through, the validator
    rejects a finite timestamp exactly when [elapsed = now - timestamp]
    is above 600000 - 3000 or below -(600000 / 2); without a finite
    timestamp there is no rejection, whatever the time. *)
Theorem C8_timing_window now type event client :
  validateEvent now type event None client = Returned true →
  (∀ ts, validateEvent now type event (Some (Finite ts)) client = Returned false ↔
         now - ts > 600000 - 3000 ∨ now - ts < - (600000 / 2)) ∧
  (∀ ts, validateEvent now type event (Some (Finite ts)) client = Returned true ↔
         ¬ (now - ts > 600000 - 3000 ∨ now - ts < - (600000 / 2))) ∧
  (∀ timestamp now', Number_isFinite timestamp = false →
         validateEvent now' type event timestamp client = Returned true).
Proof.
  unfold validateEvent.
  destruct (negb (String.prefix EVENT_PREFIX type)); [done|].
  destruct (if bool_decide (type = REQUEST_TYPE) || bool_decide (type = READY_TYPE)
            then _ else _) as [[]|]; [done| |done].
  destruct (if bool_decide (type = REQUEST_TYPE) || bool_decide (type = READY_TYPE)
               || bool_decide (type = START_TYPE)
            then _ else _) as [[]|]; [done| |done].
  intros _. unfold VERIFICATION_REQUEST_TIMEOUT, VERIFICATION_REQUEST_MARGIN.
  change (10 * 60 * 1000) with 600000. change (3 * 1000) with 3000.
  split; [|split].
  - intros ts. destruct (Z.gtb_spec (now - ts) (600000 - 3000)),
      (Z.ltb_spec (now - ts) (- (600000 / 2))); simpl; split; try done; lia.
  - intros ts. destruct (Z.gtb_spec (now - ts) (600000 - 3000)),
      (Z.ltb_spec (now - ts) (- (600000 / 2))); simpl; split; try done; try lia.
    all: intros H; exfalso; apply H; lia.
  - intros [[]|] now' H; done.
Qed.

(** ** Phase lists *)

Lemma findIndex_map {A B : Type} (f : A -> B) (p : B -> bool) (l : list A) :
  findIndex p (List.map f l) = findIndex (fun a => p (f a)) l.
Proof. induction l as [|a l IH]; simpl; [done|]. by rewrite IH. Qed.

Lemma slice_map {A B : Type} (f : A -> B) (n : Z) (l : list A) :
  slice n (List.map f l) = List.map f (slice n l).
Proof.
  unfold slice. rewrite length_map.
  destruct (n <? 0); symmetry; apply (fmap_drop f).
Qed.

Lemma top_phase_map (ts : list Transition) :
  top_phase ts = List.last (List.map phase ts) PHASE_UNSENT.
Proof.
  unfold top_phase.
  change PHASE_UNSENT with (phase (mkTransition PHASE_UNSENT None)) at 2.
  generalize (mkTransition PHASE_UNSENT None).
  induction ts as [|t [|t' ts] IH]; intros d; simpl in *; [done..|apply IH].
Qed.

Lemma newTransitions_phases r :
  List.map phase (newTransitions r) =
  new_phases (_phase r) (List.map phase (_calculatePhaseTransitions r)).
Proof.
  unfold newTransitions, new_phases.
  by rewrite <- slice_map, findIndex_map.
Qed.

Lemma calc_shapes r : List.map phase (_calculatePhaseTransitions r) ∈ shapes.
Proof.
  unfold _calculatePhaseTransitions, top_phase.
  repeat (case_match; simpl in *; simplify_eq);
    repeat (case_bool_decide; simpl in *; simplify_eq);
    unfold shapes; set_solver.
Qed.

Ltac each_shape H :=
  unfold shapes in H;
  repeat (apply elem_of_cons in H as [-> | H]);
  [..|by apply elem_of_nil in H].

Lemma new_phases_nil p ps :
  ps ∈ shapes → new_phases p ps = [] ↔ p = List.last ps PHASE_UNSENT.
Proof.
  intros H. each_shape H.
  all: unfold new_phases; simpl.
  all: repeat (case_bool_decide; simpl; simplify_eq).
  all: split; intros; simplify_eq; try done.
Qed.

Lemma new_phases_last p ps :
  ps ∈ shapes → new_phases p ps ≠ [] →
  last (new_phases p ps) = Some (List.last ps PHASE_UNSENT).
Proof.
  intros H. each_shape H.
  all: unfold new_phases; simpl.
  all: repeat (case_bool_decide; simpl; simplify_eq).
  all: intros; simplify_eq; try done.
Qed.

Lemma shapes_not_started ps : ps ∈ shapes → PHASE_STARTED ∉ ps.
Proof.
  intros H. each_shape H.
  all: intros Hin; repeat (apply elem_of_cons in Hin as [Hin | Hin]; [discriminate|]).
  all: by apply elem_of_nil in Hin.
Qed.

Lemma Forall_slice {A : Type} (P : A -> Prop) (n : Z) (l : list A) :
  Forall P l → Forall P (slice n l).
Proof. unfold slice. destruct (n <? 0); apply Forall_drop. Qed.

Lemma calc_not_started r :
  Forall (fun t => phase t ≠ PHASE_STARTED) (_calculatePhaseTransitions r).
Proof.
  apply Forall_forall. intros t Ht E.
  apply (shapes_not_started _ (calc_shapes r)).
  rewrite <- E. apply list_elem_of_In, in_map, list_elem_of_In, Ht.
Qed.

Lemma calc_applicable r :
  methods_on_record r → Forall applicable (_calculatePhaseTransitions r).
Proof.
  intros Hm.
  assert (Hrq : ∀ e, _getEventByEither REQUEST_TYPE r = Some e →
                     ∃ c l, getContent e = Some c ∧ methods c = Some l).
  { intros e. unfold _getEventByEither. case_match; intros; simplify_eq;
      eapply (Hm REQUEST_TYPE); eauto. }
  assert (Hrd : ∀ s e, _getEventByOther READY_TYPE s r = Some e →
                     ∃ c l, getContent e = Some c ∧ methods c = Some l).
  { intros s e. unfold _getEventByOther. case_match; intros; simplify_eq;
      eapply (Hm READY_TYPE); eauto. }
  unfold _calculatePhaseTransitions.
  destruct (_getEventByEither CANCEL_TYPE r) as [cn|];
    [by repeat (constructor; [split; [done|simpl; intros [?|?]; simplify_eq]|])|].
  destruct (_getEventByEither REQUEST_TYPE r) as [rq|] eqn:Erq.
  - destruct (Hrq rq eq_refl) as (c & l & Hc & Hl). clear Hrq.
    destruct (_getEventByOther READY_TYPE (getSender rq) r) as [rd|] eqn:Erd.
    + destruct (Hrd _ rd Erd) as (c' & l' & Hc' & Hl'). clear Hrd.
      repeat (case_match; simpl in *; simplify_eq).
      all: repeat (constructor; [split; [done|simpl; intros [?|?]; simplify_eq]|]);
        try apply Forall_nil; try exact I.
      all: eexists _, _, _; eauto.
    + clear Hrd. repeat (case_match; simpl in *; simplify_eq).
      all: repeat (constructor; [split; [done|simpl; intros [?|?]; simplify_eq]|]);
        try apply Forall_nil; try exact I.
      all: eexists _, _, _; eauto.
  - clear Hrq Hrd. repeat (case_match; simpl in *; simplify_eq).
    all: repeat (constructor; [split; [done|simpl; intros [?|?]; simplify_eq]|]);
      try apply Forall_nil; try exact I.
Qed.

Lemma kept_trans r1 r2 r3 : kept r1 r2 → kept r2 r3 → kept r1 r3.
Proof.
  intros (?&?&?&?&?) (?&?&?&?&?). repeat split; etrans; eauto.
Qed.

Lemma calc_kept r r' :
  kept r r' → _calculatePhaseTransitions r' = _calculatePhaseTransitions r.
Proof.
  intros (Hc & _ & Hcan & Hus & Hthem).
  unfold _calculatePhaseTransitions, _getEventByEither, _getEventByOther.
  by rewrite Hc, Hcan, Hus, Hthem.
Qed.

Lemma kept_negotiated cm oo r : kept r (negotiated cm oo r).
Proof. by repeat split. Qed.

Lemma kept_forwarded type event r : kept r (forwarded type event r).
Proof. unfold forwarded. repeat case_match; by repeat split. Qed.

Lemma kept_phase_set new r : kept r (phase_set new r).
Proof. unfold phase_set. case_match; by repeat split. Qed.

Lemma kept_sendRequest r : kept r (snd (sendRequest r)) ∧ _phase (snd (sendRequest r)) = _phase r.
Proof. unfold sendRequest; run. by case_match. Qed.

Lemma kept_cancel reason code r :
  kept r (snd (cancel reason code r)) ∧ _phase (snd (cancel reason code r)) = _phase r.
Proof. unfold cancel; run. by repeat case_match. Qed.

Lemma kept_accept r : kept r (snd (accept r)) ∧ _phase (snd (accept r)) = _phase r.
Proof. unfold accept; run. by case_match. Qed.

Lemma kept_beginKeyVerification hvp method targetDevice r :
  let r' := snd (beginKeyVerification hvp method targetDevice r) in
  kept r r' ∧ _phase r' = _phase r.
Proof.
  unfold beginKeyVerification; run. simpl.
  repeat (case_match; simpl in *; simplify_eq); by repeat split.
Qed.

Lemma Map_get_set k k' e m :
  Map_get k (Map_set k' e m) = if decide (k' = k) then Some e else Map_get k m.
Proof. unfold Map_get, Map_set. simpl. apply lookup_insert. Qed.

Lemma accepted_methods client type event :
  accepted client type event →
  type = REQUEST_TYPE ∨ type = READY_TYPE →
  ∃ c l, getContent event = Some c ∧ methods c = Some l.
Proof.
  intros (now & ts & H) Ht. unfold validateEvent in H.
  assert (bool_decide (type = REQUEST_TYPE) || bool_decide (type = READY_TYPE) = true) as E.
  { apply orb_true_iff. destruct Ht; [left|right]; by apply bool_decide_eq_true_2. }
  rewrite E in H. simpl in H.
  destruct (negb (String.prefix EVENT_PREFIX type)); [done|].
  destruct (getContent event) as [c|]; [|done].
  destruct (methods c) as [l|] eqn:El; [by exists c, l|].
  by rewrite bool_decide_eq_false_2 in H by (by intros [? ?]).
Qed.

Lemma on_record_kept history r r' :
  kept r r' → on_record history r → on_record history r'.
Proof.
  intros (Hc & Hu & _ & Hus & Hthem) [].
  split; unfold methods_on_record, otherUserId in *; rewrite ?Hc, ?Hu, ?Hus, ?Hthem; done.
Qed.

Lemma on_record_new channel verificationMethods client :
  on_record [] (constructor channel verificationMethods client).
Proof.
  split; try done.
  - intros k e _ [H|H]; done.
  - intros k e H. by apply elem_of_nil in H.
Qed.

Lemma on_record_recorded history type event isLiveEvent r :
  accepted (_client r) type event →
  on_record history r →
  on_record ((type, event) :: history) (recorded type event isLiveEvent r).
Proof.
  intros Hacc [Hpu Hpt Hsu Hst Hm Hh].
  assert (Hkeep : ∀ k (m : JsMap), is_Some (Map_get k m) → is_Some (Map_get k (Map_set type event m))).
  { intros k m H. rewrite Map_get_set. by case_decide. }
  unfold recorded, otherUserId in *.
  destruct isLiveEvent; simpl; repeat case_bool_decide; simpl.
  all: split; unfold methods_on_record, otherUserId in *; simpl; [done|done|..].
  all: try (intros k e; rewrite ?Map_get_set; try case_decide; intros; simplify_eq;
            by eauto).
  all: try (intros k e Hk; rewrite ?Map_get_set; repeat case_decide; intros [?|?];
            simplify_eq; solve [eauto using accepted_methods | eapply Hm; eauto]).
  all: intros k e [?|Hin]%elem_of_cons; simplify_eq;
    rewrite ?Map_get_set; try case_decide; try done.
  all: try (destruct (Hh _ _ Hin); split; by eauto).
Qed.

Lemma recorded_phase type event isLiveEvent r :
  _phase (recorded type event isLiveEvent r) = _phase r.
Proof. unfold recorded. by repeat case_match. Qed.

Lemma last_map {A B : Type} (f : A -> B) (l : list A) :
  last (List.map f l) = f <$> last l.
Proof. induction l as [|a [|b l] IH]; simpl in *; done. Qed.

(** After the closing [_setPhase], the recorded phase is the last one of
    the transition list. *)
Lemma phase_set_top type event cm oo r :
  let r' := phase_set (newTransitions r) (forwarded type event (negotiated cm oo r)) in
  kept r r' ∧ _phase r' = top_phase (_calculatePhaseTransitions r).
Proof.
  intros r'. split.
  { eapply kept_trans; [|apply kept_phase_set].
    eapply kept_trans; [|apply kept_forwarded]. apply kept_negotiated. }
  subst r'. unfold phase_set.
  pose proof (newTransitions_phases r) as Hn.
  pose proof (calc_shapes r) as Hs.
  rewrite top_phase_map.
  destruct (last (newTransitions r)) as [t|] eqn:El; simpl.
  - assert (new_phases (_phase r) (List.map phase (_calculatePhaseTransitions r)) ≠ []) as Hne.
    { rewrite <- Hn. intros E. apply map_eq_nil in E. by rewrite E in El. }
    pose proof (new_phases_last _ _ Hs Hne) as Hl.
    rewrite <- Hn, last_map, El in Hl. simpl in Hl. by injection Hl.
  - apply last_None in El. rewrite El in Hn. simpl in Hn.
    symmetry in Hn. apply (new_phases_nil _ _ Hs) in Hn.
    rewrite <- Hn. unfold forwarded. by repeat case_match.
Qed.

(** The phases of the transition list depend on the recorded events
    through their senders only. *)
Lemma either_same_senders k r r' :
  same_senders r r' →
  getSender <$> _getEventByEither k r' = getSender <$> _getEventByEither k r.
Proof.
  intros (_ & _ & _ & _ & Hus & Hthem). unfold _getEventByEither.
  specialize (Hus k). specialize (Hthem k).
  destruct (Map_get k (_eventsByThem r')), (Map_get k (_eventsByThem r));
    simplify_eq; simpl; [by f_equal|done].
Qed.

Lemma other_same_senders k s r r' :
  same_senders r r' →
  getSender <$> _getEventByOther k s r' = getSender <$> _getEventByOther k s r.
Proof.
  intros (Hc & _ & _ & _ & Hus & Hthem). unfold _getEventByOther.
  rewrite Hc. by case_bool_decide.
Qed.

Lemma calc_same_senders r r' :
  same_senders r r' →
  List.map phase (_calculatePhaseTransitions r') =
  List.map phase (_calculatePhaseTransitions r).
Proof.
  intros Hs.
  pose proof (either_same_senders CANCEL_TYPE _ _ Hs) as Hcn.
  pose proof (either_same_senders REQUEST_TYPE _ _ Hs) as Hrq.
  pose proof (either_same_senders START_TYPE _ _ Hs) as Hst.
  pose proof (fun s => other_same_senders READY_TYPE s _ _ Hs) as Hrd.
  destruct Hs as (Hc & Hcan & Hpu & Hpt & _ & _).
  unfold _calculatePhaseTransitions, prop_get.
  rewrite Hcan, Hpu, Hpt.
  destruct (_getEventByEither CANCEL_TYPE r'), (_getEventByEither CANCEL_TYPE r);
    try discriminate Hcn; [done|]. clear Hcn.
  set (done := bool_decide (is_Some (own_props (_eventsByUs r) !! DONE_TYPE)) &&
               bool_decide (is_Some (own_props (_eventsByThem r) !! DONE_TYPE))).
  clearbody done.
  set (can := canCreateRequest (channel r) START_TYPE). clearbody can.
  destruct (_getEventByEither REQUEST_TYPE r') as [rq'|],
           (_getEventByEither REQUEST_TYPE r) as [rq|];
    try discriminate Hrq.
  - injection Hrq as Hrq. rewrite Hrq. specialize (Hrd (getSender rq)).
    destruct (_getEventByOther READY_TYPE (getSender rq) r'),
             (_getEventByOther READY_TYPE (getSender rq) r);
      try discriminate Hrd; clear Hrd.
    + destruct (_getEventByEither START_TYPE r') as [st'|],
               (_getEventByEither START_TYPE r) as [st|];
        try discriminate Hst; [|by destruct done].
      injection Hst as Hst. rewrite Hst. by destruct done.
    + destruct (_getEventByEither START_TYPE r') as [st'|],
               (_getEventByEither START_TYPE r) as [st|];
        try discriminate Hst; [|by destruct done].
      injection Hst as Hst. rewrite Hst.
      unfold top_phase; simpl.
      destruct (bool_decide (getSender rq = getSender st)); by destruct done.
  - clear Hrd.
    destruct (_getEventByEither START_TYPE r') as [st'|],
             (_getEventByEither START_TYPE r) as [st|];
      try discriminate Hst; [|by destruct done].
    unfold top_phase; simpl. by destruct can, done.
Qed.

(** ** Cancellation and completion in the transition list *)

Lemma calc_cancelled r :
  top_phase (_calculatePhaseTransitions r) = PHASE_CANCELLED ↔
  is_Some (_getEventByEither CANCEL_TYPE r).
Proof.
  unfold _calculatePhaseTransitions.
  destruct (_getEventByEither CANCEL_TYPE r) as [cn|]; [by split; eauto|].
  split; [|by intros [? ?]].
  intros H. exfalso. revert H. unfold top_phase.
  repeat (case_match; simpl in *; simplify_eq); done.
Qed.

(** The done events are looked up as properties of the two [Map]
    objects, which have none: the list never holds [PHASE_DONE]. *)
Lemma calc_never_done r :
  own_props (_eventsByUs r) = ∅ ∨ own_props (_eventsByThem r) = ∅ →
  PHASE_DONE ∉ List.map phase (_calculatePhaseTransitions r).
Proof.
  intros Hp.
  assert (bool_decide (is_Some (prop_get DONE_TYPE (_eventsByUs r))) &&
          bool_decide (is_Some (prop_get DONE_TYPE (_eventsByThem r))) = false) as E.
  { unfold prop_get. destruct Hp as [-> | ->]; rewrite lookup_empty;
      rewrite (bool_decide_eq_false_2 (is_Some None)) by (by intros [? ?]);
      by rewrite ?andb_false_r. }
  unfold _calculatePhaseTransitions. rewrite E. simpl.
  repeat (case_match; simpl in *; simplify_eq).
  all: intros Hin; repeat (apply elem_of_cons in Hin as [Hin | Hin]; [discriminate|]).
  all: by apply elem_of_nil in Hin.
Qed.

Lemma top_phase_in ts :
  ts ≠ [] → top_phase ts ∈ List.map phase ts.
Proof.
  rewrite top_phase_map. intros Hne.
  assert (List.map phase ts ≠ []) as Hm by (by destruct ts).
  apply list_elem_of_In. destruct (exists_last Hm) as (l & a & ->).
  rewrite last_last. apply in_app_iff. right. by left.
Qed.

Lemma calc_nonempty r : _calculatePhaseTransitions r ≠ [].
Proof.
  pose proof (calc_shapes r) as H. intros E. rewrite E in H. simpl in H.
  unfold shapes in H.
  repeat (apply elem_of_cons in H as [H|H]; [discriminate|]).
  by apply elem_of_nil in H.
Qed.

Lemma either_recorded k type event isLiveEvent r :
  is_Some (_getEventByEither k r) →
  is_Some (_getEventByEither k (recorded type event isLiveEvent r)).
Proof.
  unfold _getEventByEither, recorded.
  destruct isLiveEvent; simpl; repeat case_bool_decide; simpl; try done.
  all: rewrite Map_get_set; repeat case_match; simplify_eq; eauto.
Qed.

(** Recording a message of a type and sender already on record leaves
    the senders on record as they were. *)
Lemma recorded_same_senders history type processed event isLiveEvent r :
  on_record history r →
  (type, processed) ∈ history →
  getSender event = getSender processed →
  same_senders r (recorded type event isLiveEvent r).
Proof.
  intros [_ _ Hsu Hst _ Hh] Hin Hs.
  destruct (Hh _ _ Hin) as [Hus Hthem]. rewrite <- Hs in Hus, Hthem.
  unfold recorded, otherUserId in *.
  destruct isLiveEvent; simpl; repeat case_bool_decide; simpl.
  all: repeat split; simpl; try done.
  all: intros k; rewrite Map_get_set; case_decide; [subst k|done].
  all: try (destruct Hus as [e0 E0]; [done|]; rewrite E0; simpl;
            f_equal; by rewrite (Hsu _ _ E0)).
  all: destruct Hthem as [e0 E0]; [done..|]; rewrite E0; simpl.
  all: f_equal; by destruct (Hst _ _ E0) as [-> _].
Qed.

Lemma forwarded_fields type event r :
  _phase (forwarded type event r) = _phase r ∧
  emitted (forwarded type event r) = emitted r ∧
  _observeOnly (forwarded type event r) = _observeOnly r ∧
  _commonMethods (forwarded type event r) = _commonMethods r ∧
  _cancellingUserId (forwarded type event r) = _cancellingUserId r.
Proof. unfold forwarded. by repeat case_match. Qed.

Lemma recorded_fields type event isLiveEvent r :
  emitted (recorded type event isLiveEvent r) = emitted r ∧
  _commonMethods (recorded type event isLiveEvent r) = _commonMethods r ∧
  _verifier (recorded type event isLiveEvent r) = _verifier r ∧
  _cancellingUserId (recorded type event isLiveEvent r) = _cancellingUserId r ∧
  _client (recorded type event isLiveEvent r) = _client r ∧
  channel (recorded type event isLiveEvent r) = channel r ∧
  _verificationMethods (recorded type event isLiveEvent r) = _verificationMethods r.
Proof. unfold recorded. by repeat case_match. Qed.

(** ** Evaluating the getters on recorded events *)

Lemma Map_get_new k : Map_get k new_Map = None.
Proof. unfold Map_get, new_Map. simpl. apply lookup_empty. Qed.

Lemma Map_get_set_eq k e m : Map_get k (Map_set k e m) = Some e.
Proof. rewrite Map_get_set. by case_decide. Qed.

Lemma Map_get_set_ne k k' e m : k' ≠ k → Map_get k (Map_set k' e m) = Map_get k m.
Proof. intros. rewrite Map_get_set. by case_decide. Qed.

Ltac distinct_types := let H := fresh in intros H; vm_compute in H; discriminate H.

Ltac keys :=
  repeat first
    [ rewrite Map_get_new
    | rewrite Map_get_set_eq
    | rewrite Map_get_set_ne by distinct_types ].

Lemma calc_requested r rq :
  _getEventByEither CANCEL_TYPE r = None →
  _getEventByEither REQUEST_TYPE r = Some rq →
  _getEventByOther READY_TYPE (getSender rq) r = None →
  _getEventByEither START_TYPE r = None →
  _calculatePhaseTransitions r =
  [mkTransition PHASE_UNSENT None; mkTransition PHASE_REQUESTED (Some rq)].
Proof.
  intros H1 H2 H3 H4. unfold _calculatePhaseTransitions.
  rewrite H1, H2, H3, H4. simpl. by rewrite andb_false_r.
Qed.

Lemma recorded_ours type event isLiveEvent r :
  getSender event = getUserId (_client r) →
  recorded type event isLiveEvent r =
  set_eventsByUs (Map_set type event (_eventsByUs r))
    (if isLiveEvent then r else set_observeOnly true r).
Proof.
  intros H. unfold recorded. destruct isLiveEvent; simpl;
    by rewrite (bool_decide_eq_true_2 _ H).
Qed.

Lemma recorded_theirs type event isLiveEvent r :
  getSender event ≠ getUserId (_client r) →
  getSender event = otherUserId r →
  recorded type event isLiveEvent r =
  set_eventsByThem (Map_set type event (_eventsByThem r))
    (if isLiveEvent then r else set_observeOnly true r).
Proof.
  intros H1 H2. unfold recorded, otherUserId in *. destruct isLiveEvent; simpl;
    by rewrite (bool_decide_eq_false_2 _ H1), (bool_decide_eq_true_2 _ H2).
Qed.

Lemma newTransitions_eq r ts :
  _calculatePhaseTransitions r = ts →
  newTransitions r =
  slice (findIndex (fun t => bool_decide (phase t = _phase r)) ts + 1) ts.
Proof. intros <-. reflexivity. Qed.

Ltac getters :=
  unfold _getEventByEither, _getEventByOther; simpl; keys.

Lemma calc_top_ready r :
  top_phase (_calculatePhaseTransitions r) = PHASE_READY →
  ∃ e1 e2,
    _getEventByEither REQUEST_TYPE r = Some e1 ∧
    _getEventByOther READY_TYPE (getSender e1) r = Some e2 ∧
    _calculatePhaseTransitions r =
      [mkTransition PHASE_UNSENT None; mkTransition PHASE_REQUESTED (Some e1);
       mkTransition PHASE_READY (Some e2)].
Proof.
  unfold _calculatePhaseTransitions, top_phase.
  destruct (_getEventByEither CANCEL_TYPE r); [done|].
  destruct (_getEventByEither REQUEST_TYPE r) as [e1|]; simpl.
  - destruct (_getEventByOther READY_TYPE (getSender e1) r) as [e2|] eqn:E2; simpl.
    + destruct (_getEventByEither START_TYPE r); simpl.
      * by case_match.
      * rewrite andb_false_r. simpl. intros _. by exists e1, e2.
    + repeat (case_match; simpl in *; simplify_eq); done.
  - repeat (case_match; simpl in *; simplify_eq); done.
Qed.

Lemma Map_get_recorded_us k type e live r :
  Map_get k (_eventsByUs (recorded type e live r)) =
  if bool_decide (getSender e = getUserId (_client r)) && bool_decide (type = k)
  then Some e else Map_get k (_eventsByUs r).
Proof.
  unfold recorded. destruct live; simpl; repeat case_bool_decide; simpl;
    rewrite ?Map_get_set; by repeat case_decide.
Qed.

Lemma Map_get_recorded_them k type e live r :
  Map_get k (_eventsByThem (recorded type e live r)) =
  if negb (bool_decide (getSender e = getUserId (_client r)))
     && bool_decide (getSender e = otherUserId r) && bool_decide (type = k)
  then Some e else Map_get k (_eventsByThem r).
Proof.
  unfold recorded. destruct live; simpl; repeat case_bool_decide; simpl;
    rewrite ?Map_get_set; by repeat case_decide.
Qed.

Lemma methods_has_keys m reg : methods_has m reg = true ↔ m ∈ methods_keys reg.
Proof.
  unfold methods_has, methods_get, methods_keys.
  rewrite bool_decide_eq_true, list_elem_of_In, in_map_iff. split.
  - intros [ctor H]. destruct (List.find _ reg) as [[k v]|] eqn:E; [|done].
    apply find_some in E as [Hin Hk]. apply bool_decide_eq_true in Hk.
    by exists (k, v).
  - intros ([k v] & <- & Hin).
    destruct (List.find _ reg) as [kv|] eqn:E; [by eexists|].
    eapply find_none in E; [|exact Hin]. simpl in E.
    by rewrite bool_decide_eq_true_2 in E.
Qed.

Section Properties.

Variable _hasValidPreStartPhase : VerificationRequest -> Outcome bool.
Variable _handleStart : Transition -> Method unit.


(** ** Applying transitions *)

Lemma negotiated_negotiated cm oo cm' oo' r :
  negotiated cm' oo' (negotiated cm oo r) = negotiated cm' oo' r.
Proof. reflexivity. Qed.

Lemma negotiated_same r : negotiated (_commonMethods r) (_observeOnly r) r = r.
Proof. by destruct r. Qed.

(** Short of [PHASE_STARTED], a transition writes [_commonMethods] and
    [_observeOnly] only, never clears [_observeOnly], and returns when it
    finds the method list it reads. *)
Lemma transitionToPhase_short t r :
  phase t ≠ PHASE_STARTED →
  ∃ out cm oo, _transitionToPhase _handleStart t r = (out, negotiated cm oo r)
     ∧ (_observeOnly r = true → oo = true)
     ∧ (applicable t → out = Returned tt).
Proof.
  intros Hp. destruct t as [p e]. simpl in Hp.
  unfold _transitionToPhase, applicable. simpl.
  rewrite (bool_decide_eq_false_2 _ Hp).
  destruct r as [ch reg cl cm ph us them oo v ini can rq rd em].
  unfold negotiated, set_observeOnly, set_commonMethods,
    _wasSentByOwnDevice, _wasSentByOwnUser; run; simpl.
  destruct (decide (p = PHASE_REQUESTED)) as [->|Hrq];
    [|rewrite (bool_decide_eq_false_2 _ Hrq);
      destruct (decide (p = PHASE_READY)) as [->|Hrd];
      [|rewrite (bool_decide_eq_false_2 _ Hrd)]]; simpl.
  all: destruct e as [e|]; simpl.
  all: destruct oo; simpl.
  all: repeat (case_match; simpl in *; simplify_eq).
  all: eexists _, _, _; split; [reflexivity|].
  all: split; [done|].
  all: try done.
  all: intros [_ Happ]; destruct Happ as (e0 & c0 & l0 & ? & ? & ?); [by auto|];
    by simplify_eq.
Qed.

Lemma for_of_short ts r :
  Forall (fun t => phase t ≠ PHASE_STARTED) ts →
  ∃ out cm oo, for_of ts (_transitionToPhase _handleStart) r = (out, negotiated cm oo r)
     ∧ (_observeOnly r = true → oo = true)
     ∧ (Forall applicable ts → out = Returned tt).
Proof.
  intros Hts. revert r. induction Hts as [|t ts Ht _ IH]; intros r.
  - exists (Returned tt), (_commonMethods r), (_observeOnly r).
    by rewrite negotiated_same.
  - destruct (transitionToPhase_short t r Ht) as (out & cm & oo & E & Hoo & Hout).
    simpl. unfold mbind, Method_bind. rewrite E.
    destruct out as [[]|e].
    + destruct (IH (negotiated cm oo r)) as (out' & cm' & oo' & E' & Hoo' & Hout').
      rewrite E', negotiated_negotiated.
      eexists _, _, _; split; [done|]. split.
      * intros H. apply Hoo'. simpl. by apply Hoo.
      * intros Happ. apply Hout'. by inversion Happ.
    + eexists _, _, _; split; [done|]. split; [done|].
      intros Happ. apply Hout. by inversion Happ.
Qed.

(** ** [handleEvent], step by step *)

Lemma handleEvent_eq type event isLiveEvent r :
  handleEvent _handleStart type event isLiveEvent r =
  let r1 := recorded type event isLiveEvent r in
  match for_of (newTransitions r1) (_transitionToPhase _handleStart) r1 with
  | (Returned _, r2) =>
      (Returned tt, phase_set (newTransitions r1) (forwarded type event r2))
  | (Thrown e, r2) => (Thrown e, r2)
  end.
Proof.
  unfold handleEvent, recorded, forwarded, phase_set, _setPhase,
    newTransitions, otherUserId.
  run. destruct isLiveEvent; simpl.
  all: repeat (case_match; simpl in *; simplify_eq); try done; congruence.
Qed.

(** The request [handleEvent] leaves: the event recorded, then whatever
    the new transitions negotiated, and, unless one of them threw, the
    hand-over to the verifier and the new phase. *)
Lemma handleEvent_result type event isLiveEvent r :
  let r1 := recorded type event isLiveEvent r in
  ∃ out cm oo,
    handleEvent _handleStart type event isLiveEvent r =
      (out, match out with
            | Returned _ =>
                phase_set (newTransitions r1) (forwarded type event (negotiated cm oo r1))
            | Thrown _ => negotiated cm oo r1
            end)
    ∧ (_observeOnly r1 = true → oo = true)
    ∧ (methods_on_record r1 → out = Returned tt).
Proof.
  intros r1. rewrite handleEvent_eq. cbv zeta. fold r1.
  assert (Hns : Forall (fun t => phase t ≠ PHASE_STARTED) (newTransitions r1))
    by apply Forall_slice, calc_not_started.
  destruct (for_of_short _ r1 Hns) as (out & cm & oo & -> & Hoo & Hout).
  exists out, cm, oo. split; [by destruct out as [[]|]|]. split; [done|].
  intros Hm. apply Hout, Forall_slice, calc_applicable, Hm.
Qed.

(** An accepted message is handled without a throw. *)
Lemma handleEvent_accepted history type event isLiveEvent r :
  accepted (_client r) type event →
  on_record history r →
  let r1 := recorded type event isLiveEvent r in
  ∃ cm oo,
    handleEvent _handleStart type event isLiveEvent r =
      (Returned tt,
       phase_set (newTransitions r1) (forwarded type event (negotiated cm oo r1)))
    ∧ (_observeOnly r1 = true → oo = true).
Proof.
  intros Hacc Hrec r1.
  destruct (handleEvent_result type event isLiveEvent r) as (out & cm & oo & E & Hoo & Hout).
  fold r1 in E, Hoo, Hout.
  rewrite Hout in E by apply (rec_methods _ _ (on_record_recorded _ _ _ isLiveEvent _ Hacc Hrec)).
  by exists cm, oo.
Qed.

Lemma bookkeeping_handleEvent history type event isLiveEvent r :
  accepted (_client r) type event →
  on_record history r →
  bookkeeping ((type, event) :: history) (snd (handleEvent _handleStart type event isLiveEvent r)).
Proof.
  intros Hacc Hrec.
  destruct (handleEvent_accepted _ _ _ isLiveEvent _ Hacc Hrec) as (cm & oo & -> & _).
  simpl. destruct (phase_set_top type event cm oo (recorded type event isLiveEvent r))
    as [Hk Hp].
  split.
  - eapply on_record_kept; [exact Hk|]. by apply on_record_recorded.
  - by rewrite (calc_kept _ _ Hk).
Qed.

Lemma bookkeeping_kept history r r' :
  kept r r' → _phase r' = _phase r → bookkeeping history r → bookkeeping history r'.
Proof.
  intros Hk Hp [Hrec Hph]. split; [by eapply on_record_kept|].
  by rewrite Hp, (calc_kept _ _ Hk).
Qed.

Lemma bookkeeping_call history r handled r' :
  call_on _hasValidPreStartPhase _handleStart r handled r' →
  bookkeeping history r →
  bookkeeping (from_option (fun m => [m]) [] handled ++ history) r'.
Proof.
  intros Hcall Hb. destruct Hcall; simpl.
  - apply bookkeeping_handleEvent; [done|apply Hb].
  - by eapply bookkeeping_kept; [apply kept_beginKeyVerification..|].
  - by eapply bookkeeping_kept; [apply kept_sendRequest..|].
  - by eapply bookkeeping_kept; [apply kept_cancel..|].
  - by eapply bookkeeping_kept; [apply kept_accept..|].
Qed.

(** Every reachable request keeps its books. *)
Lemma reachable_bookkeeping history r :
  reachable _hasValidPreStartPhase _handleStart history r → bookkeeping history r.
Proof.
  induction 1 as [ch reg cl|history r handled r' _ IH Hcall].
  - split; [apply on_record_new|done].
  - by eapply bookkeeping_call.
Qed.

(** ** Terminal phases *)

(** No reachable request computes a transition to Done. *)
Lemma reachable_never_computes_done history r :
  reachable _hasValidPreStartPhase _handleStart history r →
  PHASE_DONE ∉ List.map phase (_calculatePhaseTransitions r).
Proof.
  intros [Hrec _]%reachable_bookkeeping. apply calc_never_done. left. apply Hrec.
Qed.

Lemma reachable_not_done history r :
  reachable _hasValidPreStartPhase _handleStart history r → _phase r ≠ PHASE_DONE.
Proof.
  intros Hr. pose proof (reachable_bookkeeping _ _ Hr) as [_ Hph].
  rewrite Hph. intros E.
  apply (reachable_never_computes_done _ _ Hr).
  rewrite <- E. apply top_phase_in, calc_nonempty.
Qed.

Lemma handleEvent_client type event isLiveEvent r :
  _client (snd (handleEvent _handleStart type event isLiveEvent r)) = _client r.
Proof.
  destruct (handleEvent_result type event isLiveEvent r) as (out & cm & oo & -> & _).
  destruct out; simpl.
  - destruct (phase_set_top type event cm oo (recorded type event isLiveEvent r))
      as [(-> & _) _].
    unfold recorded. by repeat case_match.
  - unfold recorded. by repeat case_match.
Qed.

Lemma terminal_handleEvent history r type event isLiveEvent :
  reachable _hasValidPreStartPhase _handleStart history r →
  _phase r = PHASE_CANCELLED ∨ _phase r = PHASE_DONE →
  accepted (_client r) type event →
  _phase (snd (handleEvent _handleStart type event isLiveEvent r)) = _phase r.
Proof.
  intros Hr [Hp|Hp] Hacc; [|by apply reachable_not_done in Hr].
  pose proof (reachable_bookkeeping _ _ Hr) as [Hrec Hph].
  destruct (handleEvent_accepted _ _ _ isLiveEvent _ Hacc Hrec) as (cm & oo & -> & _).
  simpl. destruct (phase_set_top type event cm oo (recorded type event isLiveEvent r))
    as [_ ->].
  rewrite Hp. apply calc_cancelled, either_recorded, calc_cancelled. by rewrite <- Hph.
Qed.

(** C4.  Cancelled and Done are terminal for inbound messages: once a
    reachable request is in phase Cancelled or Done, handling any series
    of accepted inbound messages leaves the phase as it is. *)
Theorem C4_terminal_phases history r msgs :
  reachable _hasValidPreStartPhase _handleStart history r →
  _phase r = PHASE_CANCELLED ∨ _phase r = PHASE_DONE →
  Forall (fun msg : Inbound => accepted (_client r) msg.1.1 msg.1.2) msgs →
  _phase (handleEvents _handleStart msgs r) = _phase r.
Proof.
  intros Hr Hp Hmsgs. revert history r Hr Hp Hmsgs.
  induction msgs as [|[[type event] isLiveEvent] msgs IH]; intros history r Hr Hp Hmsgs;
    [done|].
  apply Forall_cons in Hmsgs as [Hacc Hmsgs]. simpl in Hacc. simpl.
  pose proof (terminal_handleEvent _ _ _ _ isLiveEvent Hr Hp Hacc) as Hsame.
  rewrite <- Hsame.
  eapply (IH ((type, event) :: history)).
  - eapply (reachable_call _ _ _ _ (Some (type, event))); [exact Hr|].
    by constructor.
  - by rewrite Hsame.
  - by rewrite handleEvent_client.
Qed.

(** ** Re-delivery *)

(** C5.  Handling is idempotent under re-delivery: on a reachable
    request, handling a message of a type and sender that was already
    handled produces no new transitions, leaves the phase as it is and
    emits no change notification. *)
Theorem C5_redelivery_idempotent history r type processed event isLiveEvent :
  reachable _hasValidPreStartPhase _handleStart history r →
  (type, processed) ∈ history →
  getSender event = getSender processed →
  newTransitions (recorded type event isLiveEvent r) = [] ∧
  ∃ r', handleEvent _handleStart type event isLiveEvent r = (Returned tt, r') ∧
        _phase r' = _phase r ∧
        emitted r' = emitted r.
Proof.
  intros [Hrec Hph]%reachable_bookkeeping Hin Hs.
  set (r1 := recorded type event isLiveEvent r).
  assert (newTransitions r1 = []) as Hnil.
  { apply (map_eq_nil phase). rewrite newTransitions_phases.
    apply new_phases_nil; [apply calc_shapes|].
    unfold r1 at 1. rewrite recorded_phase, Hph, top_phase_map. f_equal.
    symmetry. eapply calc_same_senders, recorded_same_senders; eauto. }
  split; [done|].
  rewrite handleEvent_eq. cbv zeta. fold r1. rewrite Hnil. simpl.
  eexists; split; [reflexivity|].
  unfold phase_set; simpl.
  destruct (forwarded_fields type event r1) as (-> & -> & _).
  split; [apply recorded_phase|apply recorded_fields].
Qed.

(** ** Negotiating the common methods *)

Lemma transition_requested e c l r :
  getContent e = Some c → methods c = Some l →
  _transitionToPhase _handleStart (mkTransition PHASE_REQUESTED (Some e)) r =
  (Returned tt,
   negotiated
     (if _wasSentByOwnDevice e r then _commonMethods r
      else List.filter (fun m => methods_has m (_verificationMethods r)) l)
     (_observeOnly r || (_wasSentByOwnUser e r && negb (_wasSentByOwnDevice e r)))
     r).
Proof.
  intros Hc Hl. destruct r as [ch reg cl cm ph us them oo v ini can rq rd em].
  unfold _transitionToPhase, negotiated, set_observeOnly, set_commonMethods,
    _wasSentByOwnDevice, _wasSentByOwnUser; run; simpl.
  destruct (bool_decide (getSender e = getUserId cl)) eqn:E1,
    (bool_decide (from_device c = Some (getDeviceId cl))) eqn:E2, oo;
    repeat (rewrite ?Hc, ?Hl, ?E1, ?E2; simpl); reflexivity.
Qed.

Lemma transition_ready e c l r :
  getContent e = Some c → methods c = Some l →
  _transitionToPhase _handleStart (mkTransition PHASE_READY (Some e)) r =
  (Returned tt,
   negotiated
     (if _wasSentByOwnDevice e r then _commonMethods r
      else List.filter (fun m => methods_has m (_verificationMethods r)) l)
     (_observeOnly r || negb (_wasSentByOwnDevice e r))
     r).
Proof.
  intros Hc Hl. destruct r as [ch reg cl cm ph us them oo v ini can rq rd em].
  unfold _transitionToPhase, negotiated, set_observeOnly, set_commonMethods,
    _wasSentByOwnDevice, _wasSentByOwnUser; run; simpl.
  destruct (bool_decide (getSender e = getUserId cl)) eqn:E1,
    (bool_decide (from_device c = Some (getDeviceId cl))) eqn:E2, oo;
    repeat (rewrite ?Hc, ?Hl, ?E1, ?E2; simpl); reflexivity.
Qed.

(** The first request on a fresh request object. *)
Lemma fresh_request ch reg cl rq live c l :
  getContent rq = Some c → methods c = Some l →
  getSender rq = getUserId cl ∨ getSender rq = userId ch →
  let r0 := constructor ch reg cl in
  handleEvent _handleStart REQUEST_TYPE rq live r0 =
  (Returned tt,
   emit "change" (set_phase PHASE_REQUESTED
     (negotiated
        (if _wasSentByOwnDevice rq r0 then []
         else List.filter (fun m => methods_has m reg) l)
        (negb live || (_wasSentByOwnUser rq r0 && negb (_wasSentByOwnDevice rq r0)))
        (recorded REQUEST_TYPE rq live r0)))).
Proof.
  intros Hc Hl Hs r0. rewrite handleEvent_eq. cbv zeta.
  set (r1 := recorded REQUEST_TYPE rq live r0).
  assert (_calculatePhaseTransitions r1 =
          [mkTransition PHASE_UNSENT None; mkTransition PHASE_REQUESTED (Some rq)]) as Hcalc.
  { destruct (decide (getSender rq = getUserId cl)) as [Hme|Hme].
    - unfold r1. rewrite recorded_ours by done.
      destruct live; apply calc_requested; getters; try done.
      all: by rewrite (bool_decide_eq_true_2 _ Hme); keys.
    - destruct Hs as [?|Hother]; [done|].
      unfold r1. rewrite recorded_theirs by done.
      destruct live; apply calc_requested; getters; try done.
      all: by rewrite (bool_decide_eq_false_2 _ Hme); keys. }
  rewrite (newTransitions_eq _ _ Hcalc).
  assert (_phase r1 = PHASE_UNSENT) as -> by apply recorded_phase.
  change (slice _ _) with [mkTransition PHASE_REQUESTED (Some rq)].
  simpl. unfold mbind, Method_bind.
  rewrite (transition_requested _ _ _ _ Hc Hl). simpl.
  unfold phase_set, forwarded. simpl.
  destruct (recorded_fields REQUEST_TYPE rq live r0) as (_ & Hcm & Hv & _ & Hcl & _ & Hreg).
  fold r1 in Hcm, Hv, Hcl, Hreg.
  rewrite Hv. simpl. unfold _wasSentByOwnDevice, _wasSentByOwnUser.
  rewrite Hcm, Hcl, Hreg. simpl.
  do 3 f_equal. unfold r1, recorded. destruct live; simpl; by repeat case_match.
Qed.

Lemma ready_after_request r rd live e1 c l :
  let r' := recorded READY_TYPE rd live r in
  _calculatePhaseTransitions r' =
    [mkTransition PHASE_UNSENT None; mkTransition PHASE_REQUESTED (Some e1);
     mkTransition PHASE_READY (Some rd)] →
  _phase r = PHASE_REQUESTED →
  _verifier r = None →
  getContent rd = Some c → methods c = Some l →
  handleEvent _handleStart READY_TYPE rd live r =
  (Returned tt,
   emit "change" (set_phase PHASE_READY
     (negotiated
        (if _wasSentByOwnDevice rd r then _commonMethods r
         else List.filter (fun m => methods_has m (_verificationMethods r)) l)
        (_observeOnly r' || negb (_wasSentByOwnDevice rd r))
        r'))).
Proof.
  intros r' Hcalc Hph Hv Hc Hl. rewrite handleEvent_eq. cbv zeta. fold r'.
  rewrite (newTransitions_eq _ _ Hcalc).
  assert (_phase r' = PHASE_REQUESTED) as -> by (by unfold r'; rewrite recorded_phase).
  change (slice _ _) with [mkTransition PHASE_READY (Some rd)].
  simpl. unfold mbind, Method_bind.
  rewrite (transition_ready _ _ _ _ Hc Hl). simpl.
  destruct (recorded_fields READY_TYPE rd live r) as (_ & Hcm & Hv' & _ & Hcl & _ & Hreg).
  fold r' in Hcm, Hv', Hcl, Hreg.
  unfold phase_set, forwarded. simpl. rewrite Hv', Hv. simpl.
  unfold _wasSentByOwnDevice, _wasSentByOwnUser.
  by rewrite Hcm, Hcl, Hreg.
Qed.

Lemma handleEvent_kept type event live r :
  kept (recorded type event live r) (snd (handleEvent _handleStart type event live r)).
Proof.
  destruct (handleEvent_result type event live r) as (out & cm & oo & -> & _).
  destruct out; simpl; [apply phase_set_top|apply kept_negotiated].
Qed.

(** C6.  After a request and a ready message have been handled on a new
    request object and its phase is Ready, [_commonMethods] holds exactly
    the methods that are both supported locally and advertised by the
    last of the two messages not sent by the local device. *)
Theorem C6_commonMethods_intersection ch reg cl rq rd live1 live2 :
  accepted cl REQUEST_TYPE rq →
  accepted cl READY_TYPE rd →
  let r0 := constructor ch reg cl in
  let r1 := snd (handleEvent _handleStart REQUEST_TYPE rq live1 r0) in
  let r2 := snd (handleEvent _handleStart READY_TYPE rd live2 r1) in
  _phase r2 = PHASE_READY →
  let last_remote := if _wasSentByOwnDevice rd r0 then rq else rd in
  _wasSentByOwnDevice last_remote r0 = false ∧
  ∃ c l, getContent last_remote = Some c ∧ methods c = Some l ∧
         ∀ m, m ∈ _commonMethods r2 ↔ m ∈ l ∧ m ∈ methods_keys reg.
Proof.
  intros Hacc1 Hacc2 r0 r1 r2 Hph last_remote.
  destruct (accepted_methods _ _ _ Hacc1 (or_introl eq_refl)) as (c1 & l1 & Hc1 & Hl1).
  destruct (accepted_methods _ _ _ Hacc2 (or_intror eq_refl)) as (c2 & l2 & Hc2 & Hl2).
  assert (Hr1 : reachable _hasValidPreStartPhase _handleStart [(REQUEST_TYPE, rq)] r1).
  { apply (reachable_call _ _ [] r0 (Some (REQUEST_TYPE, rq))); by constructor. }
  pose proof (reachable_bookkeeping _ _ Hr1) as [Hrec1 Hph1].
  pose proof (handleEvent_kept REQUEST_TYPE rq live1 r0) as (Hcl1 & Hu1 & _ & Hus1 & Hthem1).
  fold r1 in Hcl1, Hu1, Hus1, Hthem1.
  destruct (recorded_fields REQUEST_TYPE rq live1 r0) as (_ & _ & _ & _ & Hcl0 & Hch0 & _).
  rewrite Hcl0 in Hcl1. rewrite Hch0 in Hu1. simpl in Hcl1, Hu1.
  assert (Hacc2' : accepted (_client r1) READY_TYPE rd) by (by rewrite Hcl1).
  destruct (handleEvent_accepted _ _ _ live2 _ Hacc2' Hrec1) as (cm & oo & E2 & _).
  set (r2' := recorded READY_TYPE rd live2 r1) in *.
  assert (top_phase (_calculatePhaseTransitions r2') = PHASE_READY) as Htop.
  { destruct (phase_set_top READY_TYPE rd cm oo r2') as [_ <-].
    unfold r2 in Hph. by rewrite E2 in Hph. }
  destruct (calc_top_ready _ Htop) as (e1 & e2 & G1 & G2 & Hcalc).
  assert (READY_TYPE ≠ REQUEST_TYPE) as Hne by distinct_types.
  assert (REQUEST_TYPE ≠ READY_TYPE) as Hne' by distinct_types.
  assert (_client r2' = cl) as Hcl2.
  { unfold r2'. destruct (recorded_fields READY_TYPE rd live2 r1) as (_&_&_&_& -> &_). done. }
  unfold _getEventByEither, _getEventByOther in G1, G2.
  unfold r2' in G1, G2.
  rewrite !Map_get_recorded_us, !Map_get_recorded_them, Hus1, Hthem1,
    !Map_get_recorded_us, !Map_get_recorded_them in G1.
  rewrite !Map_get_recorded_us, !Map_get_recorded_them, Hus1, Hthem1,
    !Map_get_recorded_us, !Map_get_recorded_them in G2.
  fold r2' in G2. rewrite Hcl2 in G2.
  unfold otherUserId in G1, G2. rewrite Hcl1, Hu1 in G1, G2. simpl in G1, G2.
  rewrite !Map_get_new in G1, G2.
  rewrite ?andb_false_r, ?andb_true_r in G1, G2.
  assert (e1 = rq ∧ e2 = rd ∧
          ((getSender rq = getUserId cl ∧ getSender rd ≠ getUserId cl) ∨
           (getSender rq ≠ getUserId cl ∧ getSender rq = userId ch ∧
            getSender rd = getUserId cl)))
    as (-> & -> & Hcase).
  { repeat (case_bool_decide; simpl in G1, G2; simplify_eq);
      repeat (case_bool_decide; simpl in *; simplify_eq); try done.
    all: naive_solver. }
  clear G1 G2.
  assert (_phase r1 = PHASE_REQUESTED ∧ _verifier r1 = None ∧
          _verificationMethods r1 = reg ∧
          _commonMethods r1 =
            if _wasSentByOwnDevice rq r0 then []
            else List.filter (fun m => methods_has m reg) l1) as (Hp1 & Hv1 & Hreg1 & Hcm1).
  { unfold r1, r0. rewrite (fresh_request _ _ _ _ _ _ _ Hc1 Hl1).
    - simpl. fold r0.
      destruct (recorded_fields REQUEST_TYPE rq live1 r0) as (_ & _ & -> & _ & _ & _ & ->).
      done.
    - destruct Hcase as [[? _]|(_ & ? & _)]; auto. }
  unfold r2. rewrite (ready_after_request _ _ _ _ _ _ Hcalc Hp1 Hv1 Hc2 Hl2). simpl.
  rewrite Hcm1, Hreg1.
  assert (∀ e, _wasSentByOwnDevice e r1 = _wasSentByOwnDevice e r0) as Hown.
  { intros e. unfold _wasSentByOwnDevice, _wasSentByOwnUser. by rewrite Hcl1. }
  rewrite Hown. subst last_remote.
  assert (∀ l m, m ∈ List.filter (fun m => methods_has m reg) l ↔ m ∈ l ∧ m ∈ methods_keys reg)
    as Hfilter.
  { intros l m. rewrite <- methods_has_keys, !list_elem_of_In. apply filter_In. }
  destruct (_wasSentByOwnDevice rd r0) eqn:Hrd.
  - assert (_wasSentByOwnDevice rq r0 = false) as Hrq.
    { unfold _wasSentByOwnDevice, _wasSentByOwnUser in *. simpl in *.
      destruct Hcase as [[_ D]|(Q & _)].
      - by rewrite (bool_decide_eq_false_2 _ D) in Hrd.
      - by rewrite (bool_decide_eq_false_2 _ Q). }
    rewrite Hrq. split; [done|]. by exists c1, l1.
  - split; [done|]. by exists c2, l2.
Qed.

(** ** Observe-only is sticky *)

Lemma recorded_observeOnly type event isLiveEvent r :
  _observeOnly r = true → _observeOnly (recorded type event isLiveEvent r) = true.
Proof. unfold recorded. by repeat case_match. Qed.

Lemma phase_set_fields new r :
  _observeOnly (phase_set new r) = _observeOnly r ∧
  _verifier (phase_set new r) = _verifier r ∧
  _cancellingUserId (phase_set new r) = _cancellingUserId r ∧
  _commonMethods (phase_set new r) = _commonMethods r.
Proof. unfold phase_set. by case_match. Qed.

Lemma handleEvent_observeOnly type event isLiveEvent r :
  _observeOnly r = true →
  _observeOnly (snd (handleEvent _handleStart type event isLiveEvent r)) = true.
Proof.
  intros Hoo.
  destruct (handleEvent_result type event isLiveEvent r) as (out & cm & oo & -> & H & _).
  rewrite H by by apply recorded_observeOnly.
  destruct out; simpl; [|done].
  destruct (phase_set_fields (newTransitions (recorded type event isLiveEvent r))
    (forwarded type event (negotiated cm true (recorded type event isLiveEvent r))))
    as (-> & _).
  by destruct (forwarded_fields type event
    (negotiated cm true (recorded type event isLiveEvent r))) as (_ & _ & -> & _).
Qed.

Lemma transitionToPhase_observeOnly t r :
  (∀ r', _observeOnly r' = true → _observeOnly (snd (_handleStart t r')) = true) →
  _observeOnly r = true →
  _observeOnly (snd (_transitionToPhase _handleStart t r)) = true.
Proof.
  intros Hhs Hoo. destruct (decide (phase t = PHASE_STARTED)) as [Hp|Hp].
  - unfold _transitionToPhase. rewrite Hp. run. simpl. rewrite Hoo. simpl.
    destruct (event t) as [e|]; simpl; [|done].
    destruct (getContent e) as [c|]; simpl; [|done].
    rewrite Hoo, andb_false_r. simpl. by apply Hhs.
  - destruct (transitionToPhase_short t r Hp) as (out & cm & oo & -> & H & _).
    simpl. by apply H.
Qed.

Lemma outbound_observeOnly r :
  (∀ method targetDevice,
     _observeOnly (snd (beginKeyVerification _hasValidPreStartPhase method targetDevice r))
     = _observeOnly r) ∧
  _observeOnly (snd (sendRequest r)) = _observeOnly r ∧
  (∀ reason code, _observeOnly (snd (cancel reason code r)) = _observeOnly r) ∧
  _observeOnly (snd (accept r)) = _observeOnly r.
Proof.
  repeat split; intros; unfold beginKeyVerification, sendRequest, cancel, accept; run; simpl;
    repeat (case_match; simpl in *; simplify_eq); done.
Qed.

(** C10.  [_observeOnly] is false on a new request, and once it is true
    no call on the request makes it false again: not [handleEvent], not
    the application of a transition (as far as [_handleStart], which it
    ends with, does not), and none of the outbound calls. *)
Theorem C10_observeOnly_monotone :
  (∀ channel verificationMethods client,
     _observeOnly (constructor channel verificationMethods client) = false) ∧
  ∀ r, _observeOnly r = true →
    (∀ type event isLiveEvent,
       _observeOnly (snd (handleEvent _handleStart type event isLiveEvent r)) = true) ∧
    (∀ transition,
       (∀ r', _observeOnly r' = true →
              _observeOnly (snd (_handleStart transition r')) = true) →
       _observeOnly (snd (_transitionToPhase _handleStart transition r)) = true) ∧
    (∀ method targetDevice,
       _observeOnly (snd (beginKeyVerification _hasValidPreStartPhase method targetDevice r))
       = true) ∧
    _observeOnly (snd (sendRequest r)) = true ∧
    (∀ reason code, _observeOnly (snd (cancel reason code r)) = true) ∧
    _observeOnly (snd (accept r)) = true.
Proof.
  split; [done|]. intros r Hoo.
  destruct (outbound_observeOnly r) as (Hb & Hs & Hc & Ha).
  split; [intros; by apply handleEvent_observeOnly|].
  split; [intros; by apply transitionToPhase_observeOnly|].
  split; [intros; by rewrite Hb|].
  split; [by rewrite Hs|].
  split; [intros; by rewrite Hc|by rewrite Ha].
Qed.

(** ** Beginning the verification *)

(** C7, on the class as it stands.  [beginKeyVerification] calls
    [this._hasValidPreStartPhase()] before it compares the method with
    the common methods, and nothing defines that method: on a request
    that is not observe-only and has no verifier the call throws a
    TypeError, whatever the method, the target and the common methods.
    The unknown-method error of the lines that follow is not thrown; the
    request is left as it was, without a verifier. *)
Theorem C7_TypeError_before_method_check r method targetDevice :
  _observeOnly r = false →
  _verifier r = None →
  let outcome :=
    beginKeyVerification hasValidPreStartPhase_undefined method targetDevice r in
  outcome = (Thrown TypeError, r) ∧
  fst outcome ≠ Thrown UnknownMethodError ∧
  _verifier (snd outcome) = None.
Proof.
  intros Hoo Hv outcome.
  assert (outcome = (Thrown TypeError, r)) as E.
  { unfold outcome, beginKeyVerification. run. unfold id. by rewrite Hoo, Hv. }
  rewrite E. simpl. by rewrite Hv.
Qed.

(** ** A request from another device of the local user *)

(** C9, amended.  When the first message handled by a new request is an
    accepted request message sent by the local user from a device other
    than the local one, the phase is Requested, the request is
    observe-only, and [accept()] and [cancel()] do nothing. *)
Theorem C9_request_from_other_own_device channel verificationMethods client
    request isLiveEvent content :
  accepted client REQUEST_TYPE request →
  getSender request = getUserId client →
  getContent request = Some content →
  from_device content ≠ Some (getDeviceId client) →
  let r := snd (handleEvent _handleStart REQUEST_TYPE request isLiveEvent
                  (constructor channel verificationMethods client)) in
  _phase r = PHASE_REQUESTED ∧
  _observeOnly r = true ∧
  accept r = (Returned tt, r) ∧
  ∀ reason code, cancel reason code r = (Returned tt, r).
Proof.
  intros Hacc Hs Hc Hd r.
  destruct (accepted_methods _ _ _ Hacc (or_introl eq_refl)) as (c & l & Hc' & Hl).
  assert (_phase r = PHASE_REQUESTED ∧ _observeOnly r = true) as [Hp Hoo].
  { unfold r. rewrite (fresh_request _ _ _ _ _ _ _ Hc' Hl) by by left. simpl.
    split; [done|].
    unfold _wasSentByOwnUser, _wasSentByOwnDevice. simpl.
    rewrite (bool_decide_eq_true_2 _ Hs), Hc. simpl.
    rewrite (bool_decide_eq_false_2 _ Hd). simpl.
    destruct isLiveEvent; simpl; by repeat (try case_match; simpl). }
  split; [done|]. split; [done|].
  clearbody r.
  split; [|intros reason code]; unfold accept, cancel; run; unfold id; by rewrite Hoo.
Qed.

(** ** What handling a start, a done or a cancel message leaves undone *)

Lemma handleEvent_fields type event isLiveEvent r :
  let r' := snd (handleEvent _handleStart type event isLiveEvent r) in
  (_verifier r = None → _verifier r' = None) ∧
  _cancellingUserId r' = _cancellingUserId r ∧
  (_phase r' = PHASE_STARTED → _phase r = PHASE_STARTED).
Proof.
  intros r'. subst r'.
  destruct (handleEvent_result type event isLiveEvent r) as (out & cm & oo & -> & _).
  set (r1 := recorded type event isLiveEvent r).
  destruct (recorded_fields type event isLiveEvent r) as (_ & _ & Hv & Hc & _).
  fold r1 in Hv, Hc.
  destruct out as [[]|e]; simpl;
    [|split; [intros; by rewrite Hv|split; [done|unfold r1; by rewrite recorded_phase]]].
  destruct (phase_set_fields (newTransitions r1) (forwarded type event (negotiated cm oo r1)))
    as (_ & -> & -> & _).
  destruct (forwarded_fields type event (negotiated cm oo r1)) as (_ & _ & _ & _ & ->).
  split; [|split; [done|]].
  - intros Hnone. unfold forwarded. simpl. rewrite Hv, Hnone. simpl.
    by rewrite Hv.
  - destruct (phase_set_top type event cm oo r1) as [_ ->]. intros E. exfalso.
    apply (shapes_not_started _ (calc_shapes r1)). rewrite <- E.
    apply top_phase_in, calc_nonempty.
Qed.

(** C1, at a failing input.  Bob's request and Alice's ready have been
    handled: the request is in phase Ready, not observe-only and without
    a verifier.  Handling Bob's start message applies one new transition,
    whose phase is the start event type; no verifier is created, and the
    recorded phase is that string, not [PHASE_STARTED]. *)
Theorem C1_start_creates_no_verifier :
  let r := handleEvents _handleStart
             [(REQUEST_TYPE, Example.request_by_bob, true);
              (READY_TYPE, Example.ready_by_alice, true)] Example.fresh in
  let r' := snd (handleEvent _handleStart START_TYPE Example.start_by_bob true r) in
  (_phase r = PHASE_READY ∧ _observeOnly r = false ∧ _verifier r = None) ∧
  List.map phase (newTransitions (recorded START_TYPE Example.start_by_bob true r)) =
    [PhaseStr START_TYPE] ∧
  _verifier r' = None ∧
  _phase r' = PhaseStr START_TYPE ∧
  _phase r' ≠ PHASE_STARTED ∧
  started r' = false.
Proof. vm_compute. repeat split; discriminate. Qed.

(** C2, at a failing input.  After request, ready and start, both done
    messages are on record and the list computed before them ends with
    the started phase; yet the recomputed list still ends there, without
    [PHASE_DONE], and the phase has not moved: the done events are read
    as properties of the maps, not as their entries. *)
Theorem C2_done_is_never_reached :
  let r := handleEvents _handleStart
             [(REQUEST_TYPE, Example.request_by_bob, true);
              (READY_TYPE, Example.ready_by_alice, true);
              (START_TYPE, Example.start_by_bob, true);
              (DONE_TYPE, Example.done_by_alice, true);
              (DONE_TYPE, Example.done_by_bob, true)] Example.fresh in
  Map_get DONE_TYPE (_eventsByUs r) = Some Example.done_by_alice ∧
  Map_get DONE_TYPE (_eventsByThem r) = Some Example.done_by_bob ∧
  prop_get DONE_TYPE (_eventsByUs r) = None ∧
  prop_get DONE_TYPE (_eventsByThem r) = None ∧
  List.map phase (_calculatePhaseTransitions r) =
    [PHASE_UNSENT; PHASE_REQUESTED; PHASE_READY; PhaseStr START_TYPE] ∧
  _phase r = PhaseStr START_TYPE ∧
  done r = false ∧
  emitted r = ["change"; "change"; "change"].
Proof. vm_compute. repeat split. Qed.

(** C3, at a failing input.  Bob's cancel message arrives in phase
    Ready: the phase becomes Cancelled, but [_cancellingUserId] is still
    undefined, not Bob's user id. *)
Theorem C3_inbound_cancel_sets_no_cancellingUserId :
  let r := handleEvents _handleStart
             [(REQUEST_TYPE, Example.request_by_bob, true);
              (READY_TYPE, Example.ready_by_alice, true)] Example.fresh in
  let r' := snd (handleEvent _handleStart CANCEL_TYPE Example.cancel_by_bob true r) in
  ready r = true ∧
  cancelled r' = true ∧
  _cancellingUserId r' = None ∧
  _cancellingUserId r' ≠ Some (getSender Example.cancel_by_bob).
Proof. vm_compute. repeat split; discriminate. Qed.

End Properties.

(** * Examples

    The statements above at concrete inputs, with the stand-ins for the
    two absent methods. *)

Lemma accepted_example type event :
  validateEvent 0 type event None Example.alice = Returned true →
  accepted Example.alice type event.
Proof. intros H. by exists 0, None. Defined.

Lemma reachable_example type event isLiveEvent :
  validateEvent 0 type event None Example.alice = Returned true →
  reachable hasValidPreStartPhase_spec handleStart_spec [(type, event)]
    (snd (handleEvent handleStart_spec type event isLiveEvent Example.fresh)).
Proof.
  intros H.
  apply (reachable_call _ _ [] Example.fresh (Some (type, event))).
  - apply reachable_new.
  - apply call_handleEvent, accepted_example, H.
Defined.

(** C4 at work: after Bob's cancel, a request, a ready and a start
    message leave the phase Cancelled. *)
Lemma C4_witness :
  let r := snd (handleEvent handleStart_spec CANCEL_TYPE Example.cancel_by_bob true
                  Example.fresh) in
  let msgs : list Inbound :=
    [(REQUEST_TYPE, Example.request_by_bob, true);
     (READY_TYPE, Example.ready_by_alice, true);
     (START_TYPE, Example.start_by_bob, true)] in
  _phase r = PHASE_CANCELLED ∧
  _phase (handleEvents handleStart_spec msgs r) = PHASE_CANCELLED.
Proof.
  intros r msgs.
  assert (_phase r = PHASE_CANCELLED) as Hp by (vm_compute; reflexivity).
  split; [exact Hp|].
  transitivity (_phase r); [|exact Hp].
  apply (C4_terminal_phases hasValidPreStartPhase_spec handleStart_spec
           [(CANCEL_TYPE, Example.cancel_by_bob)] r msgs).
  - apply reachable_example. vm_compute. reflexivity.
  - left. exact Hp.
  - repeat constructor; apply accepted_example; vm_compute; reflexivity.
Defined.

(** C5 at work: Bob's request, delivered a second time. *)
Lemma C5_witness :
  let r := snd (handleEvent handleStart_spec REQUEST_TYPE Example.request_by_bob true
                  Example.fresh) in
  newTransitions (recorded REQUEST_TYPE Example.request_by_bob true r) = [] ∧
  ∃ r', handleEvent handleStart_spec REQUEST_TYPE Example.request_by_bob true r
        = (Returned tt, r') ∧
        _phase r' = _phase r ∧ emitted r' = emitted r.
Proof.
  intros r.
  apply (C5_redelivery_idempotent hasValidPreStartPhase_spec handleStart_spec
           [(REQUEST_TYPE, Example.request_by_bob)] r REQUEST_TYPE
           Example.request_by_bob Example.request_by_bob true).
  - apply reachable_example. vm_compute. reflexivity.
  - apply list_elem_of_here.
  - reflexivity.
Defined.

(** C6 at work: Bob asks with SAS, Alice's phone answers ready. *)
Lemma C6_witness :
  let r1 := snd (handleEvent handleStart_spec REQUEST_TYPE Example.request_by_bob true
                   Example.fresh) in
  let r2 := snd (handleEvent handleStart_spec READY_TYPE Example.ready_by_alice true r1) in
  _phase r2 = PHASE_READY ∧
  ∀ m, m ∈ _commonMethods r2 ↔ m ∈ ["m.sas.v1"] ∧ m ∈ methods_keys Example.registry.
Proof.
  intros r1 r2.
  assert (_phase r2 = PHASE_READY) as Hp by (vm_compute; reflexivity).
  split; [exact Hp|].
  destruct (C6_commonMethods_intersection hasValidPreStartPhase_spec handleStart_spec
              Example.to_bob Example.registry Example.alice
              Example.request_by_bob Example.ready_by_alice true true)
    as (_ & c & l & Hc & Hl & H).
  - apply accepted_example. vm_compute. reflexivity.
  - apply accepted_example. vm_compute. reflexivity.
  - exact Hp.
  - vm_compute in Hc. injection Hc as <-. vm_compute in Hl. injection Hl as <-.
    exact H.
Defined.

(** C7 fails on the class: after Bob's request SAS is the one common
    method, the request is an active party without verifier, and a QR
    method, which is outside the common methods, is met with a TypeError
    instead of the unknown-method error. *)
Lemma C7_witness :
  let r := Scenario.requested_as_is in
  let outcome := beginKeyVerification hasValidPreStartPhase_undefined "m.qr_code.show.v1"
                   None r in
  (_phase r = PHASE_REQUESTED ∧ _commonMethods r = ["m.sas.v1"] ∧
   "m.qr_code.show.v1" ∉ _commonMethods r) ∧
  outcome = (Thrown TypeError, r) ∧
  fst outcome ≠ Thrown UnknownMethodError ∧
  _verifier (snd outcome) = None.
Proof.
  intros r outcome.
  assert (_commonMethods r = ["m.sas.v1"]) as Hcm by (vm_compute; reflexivity).
  split.
  - split; [vm_compute; reflexivity|]. split; [exact Hcm|].
    rewrite Hcm. intros H. apply list_elem_of_singleton in H. discriminate H.
  - apply (C7_TypeError_before_method_check r "m.qr_code.show.v1" None).
    + vm_compute. reflexivity.
    + vm_compute. reflexivity.
Defined.

(** C8 at work: Bob's request at time 1000000. *)
Lemma C8_witness :
  validateEvent 1000000 REQUEST_TYPE Example.request_by_bob None Example.alice
    = Returned true ∧
  (validateEvent 1000000 REQUEST_TYPE Example.request_by_bob (Some (Finite 403000))
     Example.alice = Returned true) ∧
  (validateEvent 1000000 REQUEST_TYPE Example.request_by_bob (Some (Finite 402999))
     Example.alice = Returned false) ∧
  (validateEvent 1000000 REQUEST_TYPE Example.request_by_bob (Some (Finite 1300001))
     Example.alice = Returned false) ∧
  (validateEvent 1000000 REQUEST_TYPE Example.request_by_bob (Some NaN)
     Example.alice = Returned true).
Proof.
  assert (validateEvent 1000000 REQUEST_TYPE Example.request_by_bob None Example.alice
          = Returned true) as H by (vm_compute; reflexivity).
  destruct (C8_timing_window 1000000 REQUEST_TYPE Example.request_by_bob Example.alice H)
    as (Hreject & Haccept & Hnone).
  split; [exact H|]. split; [|split; [|split]].
  - apply Haccept. intros [E|E]; vm_compute in E; discriminate E.
  - apply Hreject. left. reflexivity.
  - apply Hreject. right. reflexivity.
  - apply Hnone. reflexivity.
Defined.

(** C9 as stated fails: a request sent from the local device itself
    leaves the request an active party; [cancel()] then sends a
    cancellation, and [accept()] a ready message. *)
Lemma C9_counterexample :
  let request := Example.request_by_alices_phone in
  let r := snd (handleEvent handleStart_spec REQUEST_TYPE request true Example.fresh) in
  (getSender request = getUserId Example.alice ∧
   from_device <$> getContent request = Some (Some (getDeviceId Example.alice))) ∧
  _phase r = PHASE_REQUESTED ∧
  _observeOnly r = false ∧
  List.map out_type (sent (channel (snd (cancel_default r)))) = [CANCEL_TYPE] ∧
  _cancellingUserId (snd (cancel_default r)) = Some "@alice:example.org" ∧
  List.map out_type (sent (channel (snd (accept r)))) = [READY_TYPE].
Proof. vm_compute. repeat split. Qed.

(** C9, amended, at work: the request comes from Alice's tablet. *)
Lemma C9_witness :
  let r := snd (handleEvent handleStart_spec REQUEST_TYPE Example.request_by_alices_tablet
                  true Example.fresh) in
  _phase r = PHASE_REQUESTED ∧
  _observeOnly r = true ∧
  accept r = (Returned tt, r) ∧
  ∀ reason code, cancel reason code r = (Returned tt, r).
Proof.
  apply (C9_request_from_other_own_device handleStart_spec Example.to_bob Example.registry
           Example.alice Example.request_by_alices_tablet true
           (mkContent (Some ["m.sas.v1"]) (Some "ALICETABLET") None None None)).
  - apply accepted_example. vm_compute. reflexivity.
  - reflexivity.
  - reflexivity.
  - vm_compute. discriminate.
Defined.

(** C10 at work: an observing request stays observing through a live
    cancel message and through [sendRequest()]. *)
Lemma C10_witness :
  let r := snd (handleEvent handleStart_spec REQUEST_TYPE Example.request_by_alices_tablet
                  true Example.fresh) in
  _observeOnly r = true ∧
  _observeOnly (snd (handleEvent handleStart_spec CANCEL_TYPE Example.cancel_by_bob true r))
    = true ∧
  _observeOnly (snd (sendRequest r)) = true.
Proof.
  intros r.
  assert (_observeOnly r = true) as H by (vm_compute; reflexivity).
  destruct (C10_observeOnly_monotone hasValidPreStartPhase_spec handleStart_spec)
    as [_ Hmono].
  destruct (Hmono r H) as (Hhandle & _ & _ & Hsend & _).
  split; [exact H|]. split; [apply Hhandle|exact Hsend].
Defined.

(** * Further properties of the request *)

Section Extras.

Variable _hasValidPreStartPhase : VerificationRequest -> Outcome bool.
Variable _handleStart : Transition -> Method unit.

(** ** What [handleEvent] leaves alone *)

Lemma handleEvent_untouched type event isLiveEvent r :
  let r' := snd (handleEvent _handleStart type event isLiveEvent r) in
  channel r' = channel r ∧
  _verificationMethods r' = _verificationMethods r ∧
  _client r' = _client r ∧
  _initiatedByMe r' = _initiatedByMe r ∧
  _requestEvent r' = _requestEvent r ∧
  _readyEvent r' = _readyEvent r.
Proof.
  intros r'. subst r'.
  destruct (handleEvent_result _handleStart type event isLiveEvent r)
    as (out & cm & oo & -> & _).
  destruct out; simpl; unfold phase_set, forwarded, recorded;
    repeat case_match; done.
Qed.

(** Handling an inbound message sends nothing and leaves the channel, the
    registry, the client, [_initiatedByMe], [_cancellingUserId] and the
    two event references as they were, whatever the message and whether
    or not the call throws. *)
Theorem handleEvent_sends_nothing type event isLiveEvent r :
  let r' := snd (handleEvent _handleStart type event isLiveEvent r) in
  channel r' = channel r ∧
  _verificationMethods r' = _verificationMethods r ∧
  _client r' = _client r ∧
  _initiatedByMe r' = _initiatedByMe r ∧
  _cancellingUserId r' = _cancellingUserId r ∧
  _requestEvent r' = _requestEvent r ∧
  _readyEvent r' = _readyEvent r.
Proof.
  intros r'.
  destruct (handleEvent_untouched type event isLiveEvent r)
    as (Hch & Hreg & Hcl & Hi & Hrq & Hrd).
  destruct (handleEvent_fields _handleStart type event isLiveEvent r) as (_ & Hc & _).
  fold r' in Hch, Hreg, Hcl, Hi, Hrq, Hrd, Hc.
  repeat split; assumption.
Qed.

Lemma handleEvent_emitted type event isLiveEvent r :
  let r' := snd (handleEvent _handleStart type event isLiveEvent r) in
  emitted r' =
  if bool_decide (_phase r' = _phase r) then emitted r else "change" :: emitted r.
Proof.
  intros r'. subst r'.
  destruct (handleEvent_result _handleStart type event isLiveEvent r)
    as (out & cm & oo & -> & _).
  set (r1 := recorded type event isLiveEvent r).
  assert (_phase r1 = _phase r) as Hp by apply recorded_phase.
  assert (emitted r1 = emitted r) as He by apply recorded_fields.
  destruct out as [[]|e]; simpl; [|by rewrite Hp, bool_decide_eq_true_2].
  pose proof (newTransitions_phases r1) as Hn.
  pose proof (calc_shapes r1) as Hs.
  unfold phase_set.
  destruct (last (newTransitions r1)) as [t|] eqn:El; simpl.
  - assert (new_phases (_phase r1) (List.map phase (_calculatePhaseTransitions r1)) ≠ [])
      as Hne.
    { rewrite <- Hn. intros E. apply map_eq_nil in E. by rewrite E in El. }
    pose proof (new_phases_last _ _ Hs Hne) as Hl.
    rewrite <- Hn, last_map, El in Hl. simpl in Hl. injection Hl as Hl.
    rewrite bool_decide_eq_false_2.
    + destruct (forwarded_fields type event (negotiated cm oo r1)) as (_ & -> & _).
      simpl. by rewrite He.
    + rewrite Hl, <- Hp. intros E. apply Hne. by apply new_phases_nil.
  - destruct (forwarded_fields type event (negotiated cm oo r1)) as (-> & -> & _).
    simpl. by rewrite Hp, He, bool_decide_eq_true_2.
Qed.

(** A change notification is emitted exactly when the recorded phase
    changes, and then once: the notifications are those of before, or
    those with one more in front. *)
Theorem handleEvent_notifies_iff_phase_changes type event isLiveEvent r :
  let r' := snd (handleEvent _handleStart type event isLiveEvent r) in
  (_phase r' = _phase r ↔ emitted r' = emitted r) ∧
  (_phase r' ≠ _phase r ↔ emitted r' = "change" :: emitted r).
Proof.
  intros r'.
  pose proof (handleEvent_emitted type event isLiveEvent r) as He.
  cbv zeta in He. fold r' in He.
  assert (emitted r ≠ "change" :: emitted r) as Hlonger.
  { intros E. apply (f_equal length) in E. simpl in E. lia. }
  case_bool_decide as Hp; rewrite He; (split; split; intros H); congruence.
Qed.

(** ** Cancellation *)

Lemma cancel_recorded event isLiveEvent r :
  getSender event = getUserId (_client r) ∨ getSender event = otherUserId r →
  is_Some (_getEventByEither CANCEL_TYPE (recorded CANCEL_TYPE event isLiveEvent r)).
Proof.
  intros Hs. unfold _getEventByEither.
  rewrite Map_get_recorded_them, Map_get_recorded_us.
  rewrite (bool_decide_eq_true_2 (CANCEL_TYPE = CANCEL_TYPE)) by done.
  rewrite !andb_true_r.
  destruct (decide (getSender event = getUserId (_client r))) as [Hme|Hme].
  - rewrite (bool_decide_eq_true_2 _ Hme). simpl. by case_match.
  - destruct Hs as [?|Hother]; [done|].
    rewrite (bool_decide_eq_false_2 _ Hme), (bool_decide_eq_true_2 _ Hother). simpl. eauto.
Qed.

Lemma handleEvent_cancel event isLiveEvent r :
  getSender event = getUserId (_client r) ∨ getSender event = otherUserId r →
  ∃ r', handleEvent _handleStart CANCEL_TYPE event isLiveEvent r = (Returned tt, r') ∧
        _phase r' = PHASE_CANCELLED.
Proof.
  intros Hs. set (r1 := recorded CANCEL_TYPE event isLiveEvent r).
  destruct (cancel_recorded event isLiveEvent r Hs) as [cn Hcn]. fold r1 in Hcn.
  assert (_calculatePhaseTransitions r1 =
          [mkTransition PHASE_UNSENT None; mkTransition PHASE_CANCELLED (Some cn)]) as Hcalc.
  { unfold _calculatePhaseTransitions. by rewrite Hcn. }
  assert (Forall applicable (newTransitions r1)) as Happ.
  { unfold newTransitions. rewrite Hcalc. apply Forall_slice.
    repeat constructor; simpl; try done; by intros [?|?]. }
  assert (Forall (fun t => phase t ≠ PHASE_STARTED) (newTransitions r1)) as Hns
    by apply Forall_slice, calc_not_started.
  rewrite handleEvent_eq. cbv zeta. fold r1.
  destruct (for_of_short _handleStart _ r1 Hns) as (out & cm & oo & -> & _ & Hout).
  rewrite (Hout Happ). eexists. split; [reflexivity|].
  destruct (phase_set_top CANCEL_TYPE event cm oo r1) as [_ Hp].
  assert (top_phase (_calculatePhaseTransitions r1) = PHASE_CANCELLED) as Htop
    by (by rewrite Hcalc).
  by rewrite Htop in Hp.
Qed.

(** A cancel message from the local user or from the counterparty
    always brings the request to phase Cancelled, whatever its state and
    whatever else is on record; the call does not throw, and the getters
    read a cancelled request that is no longer pending. *)
Theorem cancel_always_wins event isLiveEvent r :
  getSender event = getUserId (_client r) ∨ getSender event = otherUserId r →
  ∃ r', handleEvent _handleStart CANCEL_TYPE event isLiveEvent r = (Returned tt, r') ∧
        _phase r' = PHASE_CANCELLED ∧
        cancelled r' = true ∧
        pending r' = false.
Proof.
  intros Hs. destruct (handleEvent_cancel event isLiveEvent r Hs) as (r' & E & Hp).
  exists r'. split; [exact E|]. split; [exact Hp|].
  unfold cancelled, pending. by rewrite Hp.
Qed.

(** ** Messages from strangers, historical messages *)

Lemma recorded_stranger type event isLiveEvent r :
  getSender event ≠ getUserId (_client r) →
  getSender event ≠ otherUserId r →
  recorded type event isLiveEvent r =
  if isLiveEvent then r else set_observeOnly true r.
Proof.
  intros H1 H2. unfold recorded, otherUserId in *. destruct isLiveEvent; simpl;
    by rewrite (bool_decide_eq_false_2 _ H1), (bool_decide_eq_false_2 _ H2).
Qed.

(** On a reachable request, a message whose sender is neither the local
    user nor the counterparty is not recorded, applies no transition and
    reaches no verifier: apart from the observe-only override of a
    historical message, the request is left as it was. *)
Theorem stranger_is_ignored history r type event isLiveEvent :
  reachable _hasValidPreStartPhase _handleStart history r →
  getSender event ≠ getUserId (_client r) →
  getSender event ≠ otherUserId r →
  handleEvent _handleStart type event isLiveEvent r =
  (Returned tt, if isLiveEvent then r else set_observeOnly true r).
Proof.
  intros [_ Hph]%reachable_bookkeeping Hme Hother.
  rewrite handleEvent_eq. cbv zeta. rewrite (recorded_stranger _ _ _ _ Hme Hother).
  set (r1 := if isLiveEvent then r else set_observeOnly true r).
  assert (kept r r1 ∧ _phase r1 = _phase r ∧ otherUserId r1 = otherUserId r) as (Hk & Hp & Ho)
    by (unfold r1; by destruct isLiveEvent).
  assert (newTransitions r1 = []) as ->.
  { apply (map_eq_nil phase). rewrite newTransitions_phases.
    apply new_phases_nil; [apply calc_shapes|].
    by rewrite Hp, Hph, (calc_kept _ _ Hk), top_phase_map. }
  simpl. unfold phase_set, forwarded. simpl.
  rewrite Ho, (bool_decide_eq_false_2 _ Hother). simpl. by case_match.
Qed.

(** An observe-only request sends nothing: [sendRequest], [cancel] and
    [accept] return without effect, and [beginKeyVerification] returns
    the verifier there is, if any, without creating one. *)
Lemma observer_is_silent r :
  _observeOnly r = true →
  (∀ method targetDevice,
     beginKeyVerification _hasValidPreStartPhase method targetDevice r =
     (Returned (_verifier r), r)) ∧
  sendRequest r = (Returned tt, r) ∧
  (∀ reason code, cancel reason code r = (Returned tt, r)) ∧
  accept r = (Returned tt, r).
Proof.
  intros Hoo.
  repeat split; intros; unfold beginKeyVerification, sendRequest, cancel, accept;
    run; unfold id; by rewrite Hoo.
Qed.

Lemma historical_event_makes_observer type event r :
  _observeOnly (snd (handleEvent _handleStart type event false r)) = true.
Proof.
  destruct (handleEvent_result _handleStart type event false r)
    as (out & cm & oo & -> & H & _).
  rewrite H by (unfold recorded; by repeat case_match).
  destruct out; simpl; [|done].
  destruct (phase_set_fields (newTransitions (recorded type event false r))
    (forwarded type event (negotiated cm true (recorded type event false r))))
    as (-> & _).
  by destruct (forwarded_fields type event
    (negotiated cm true (recorded type event false r))) as (_ & _ & -> & _).
Qed.

(** After a message that is not live has been handled, whatever the
    request and the message and also when handling it threw, the request
    is observe-only and none of the outbound calls sends or changes
    anything. *)
Theorem historical_event_silences type event r :
  let r' := snd (handleEvent _handleStart type event false r) in
  _observeOnly r' = true ∧
  (∀ method targetDevice,
     beginKeyVerification _hasValidPreStartPhase method targetDevice r' =
     (Returned (_verifier r'), r')) ∧
  sendRequest r' = (Returned tt, r') ∧
  (∀ reason code, cancel reason code r' = (Returned tt, r')) ∧
  accept r' = (Returned tt, r').
Proof.
  intros r'. pose proof (historical_event_makes_observer type event r) as H.
  split; [exact H|]. by apply observer_is_silent.
Qed.

(** ** The phases a request can be in *)

(** The recorded phase of a reachable request is Unsent, Requested,
    Ready, Cancelled or the start event type; it is never
    [PHASE_STARTED] or [PHASE_DONE], so the getters [started] and [done]
    are false, and the request is pending exactly when its phase is
    neither Unsent nor Cancelled. *)
Theorem reachable_phases history r :
  reachable _hasValidPreStartPhase _handleStart history r →
  _phase r ∈ [PHASE_UNSENT; PHASE_REQUESTED; PHASE_READY; PHASE_CANCELLED;
              PhaseStr START_TYPE] ∧
  started r = false ∧
  done r = false ∧
  pending r = negb (bool_decide (_phase r = PHASE_UNSENT))
              && negb (bool_decide (_phase r = PHASE_CANCELLED)).
Proof.
  intros Hr.
  pose proof (reachable_bookkeeping _ _ _ _ Hr) as [_ Hph].
  pose proof (reachable_never_computes_done _ _ _ _ Hr) as Hnd.
  pose proof (calc_shapes r) as Hs.
  rewrite top_phase_map in Hph.
  assert (_phase r ∈ [PHASE_UNSENT; PHASE_REQUESTED; PHASE_READY; PHASE_CANCELLED;
                      PhaseStr START_TYPE]) as Hin.
  { rewrite Hph. revert Hnd.
    generalize (List.map phase (_calculatePhaseTransitions r)) Hs.
    intros ps Hps Hnd. each_shape Hps; simpl.
    all: first [ solve [apply list_elem_of_In; simpl; tauto]
               | exfalso; apply Hnd, list_elem_of_In; simpl; tauto ]. }
  split; [exact Hin|].
  unfold started, done, pending.
  repeat (apply elem_of_cons in Hin as [->|Hin]); [..|by apply elem_of_nil in Hin]; done.
Qed.

(** ** Bookkeeping: the latest message of a type and side *)

(** After a message from the local user or the counterparty has been
    handled, [_getEventBy] finds it under its type and sender, and finds
    under every other type what it found before.  This holds whatever
    the request, also when handling threw. *)
Theorem handled_event_is_on_record type event isLiveEvent r :
  getSender event = getUserId (_client r) ∨ getSender event = otherUserId r →
  let r' := snd (handleEvent _handleStart type event isLiveEvent r) in
  _getEventBy type (getSender event) r' = Some event ∧
  ∀ k sender, k ≠ type → _getEventBy k sender r' = _getEventBy k sender r.
Proof.
  intros Hs r'.
  pose proof (handleEvent_kept _handleStart type event isLiveEvent r)
    as (Hc & _ & _ & Hus & Hthem).
  fold r' in Hc, Hus, Hthem.
  destruct (recorded_fields type event isLiveEvent r) as (_ & _ & _ & _ & Hc0 & _).
  rewrite Hc0 in Hc.
  unfold _getEventBy. rewrite Hc, Hus, Hthem. split.
  - rewrite Map_get_recorded_us, Map_get_recorded_them.
    rewrite (bool_decide_eq_true_2 (type = type)) by done. rewrite !andb_true_r.
    destruct (decide (getSender event = getUserId (_client r))) as [Hme|Hme].
    + by rewrite (bool_decide_eq_true_2 _ Hme).
    + destruct Hs as [?|Hother]; [done|].
      by rewrite (bool_decide_eq_false_2 _ Hme), (bool_decide_eq_true_2 _ Hother).
  - intros k sender Hk.
    rewrite Map_get_recorded_us, Map_get_recorded_them.
    rewrite (bool_decide_eq_false_2 (type = k)) by done.
    by rewrite !andb_false_r.
Qed.

(** ** The order of delivery *)

Lemma recorded_props type event isLiveEvent r :
  own_props (_eventsByUs (recorded type event isLiveEvent r)) = own_props (_eventsByUs r) ∧
  own_props (_eventsByThem (recorded type event isLiveEvent r)) = own_props (_eventsByThem r).
Proof. unfold recorded, Map_set. by repeat case_match. Qed.

(** The entries of the two maps once a second message is recorded after
    a first one has been handled. *)
Lemma Map_get_second k t1 e1 l1 t2 e2 l2 r :
  let r1 := snd (handleEvent _handleStart t1 e1 l1 r) in
  let r2 := recorded t2 e2 l2 r1 in
  Map_get k (_eventsByUs r2) =
    (if bool_decide (getSender e2 = getUserId (_client r)) && bool_decide (t2 = k)
     then Some e2
     else if bool_decide (getSender e1 = getUserId (_client r)) && bool_decide (t1 = k)
     then Some e1 else Map_get k (_eventsByUs r)) ∧
  Map_get k (_eventsByThem r2) =
    (if negb (bool_decide (getSender e2 = getUserId (_client r)))
        && bool_decide (getSender e2 = otherUserId r) && bool_decide (t2 = k)
     then Some e2
     else if negb (bool_decide (getSender e1 = getUserId (_client r)))
             && bool_decide (getSender e1 = otherUserId r) && bool_decide (t1 = k)
     then Some e1 else Map_get k (_eventsByThem r)).
Proof.
  intros r1 r2.
  pose proof (handleEvent_kept _handleStart t1 e1 l1 r) as (_ & _ & _ & Hus & Hthem).
  destruct (handleEvent_untouched t1 e1 l1 r) as (Hch & _ & Hcl & _).
  fold r1 in Hus, Hthem, Hch, Hcl.
  unfold r2. rewrite Map_get_recorded_us, Map_get_recorded_them.
  unfold otherUserId. rewrite Hcl, Hch, Hus, Hthem.
  by rewrite Map_get_recorded_us, Map_get_recorded_them.
Qed.

(** Two accepted messages that differ in type or in sender can be
    delivered in either order: the recorded phase and what [_getEventBy]
    finds come out the same. *)
Theorem delivery_order_is_irrelevant history r t1 e1 l1 t2 e2 l2 :
  reachable _hasValidPreStartPhase _handleStart history r →
  accepted (_client r) t1 e1 →
  accepted (_client r) t2 e2 →
  t1 ≠ t2 ∨ getSender e1 ≠ getSender e2 →
  let r12 := handleEvents _handleStart [(t1, e1, l1); (t2, e2, l2)] r in
  let r21 := handleEvents _handleStart [(t2, e2, l2); (t1, e1, l1)] r in
  _phase r12 = _phase r21 ∧
  ∀ k sender, _getEventBy k sender r12 = _getEventBy k sender r21.
Proof.
  intros Hr Ha1 Ha2 Hdiff. simpl.
  set (a1 := snd (handleEvent _handleStart t1 e1 l1 r)).
  set (b1 := snd (handleEvent _handleStart t2 e2 l2 r)).
  set (a2 := recorded t2 e2 l2 a1). set (b2 := recorded t1 e1 l1 b1).
  (* the lookups agree *)
  assert (∀ k, Map_get k (_eventsByUs a2) = Map_get k (_eventsByUs b2) ∧
               Map_get k (_eventsByThem a2) = Map_get k (_eventsByThem b2)) as Hmaps.
  { intros k. unfold a2, b2, a1, b1.
    destruct (Map_get_second k t1 e1 l1 t2 e2 l2 r) as [-> ->].
    destruct (Map_get_second k t2 e2 l2 t1 e1 l1 r) as [-> ->].
    repeat case_bool_decide; simpl; try done; subst; destruct Hdiff; congruence. }
  (* fields the handling leaves alone *)
  destruct (handleEvent_untouched t1 e1 l1 r) as (Hcha & _ & Hcla & _).
  destruct (handleEvent_untouched t2 e2 l2 r) as (Hchb & _ & Hclb & _).
  fold a1 in Hcha, Hcla. fold b1 in Hchb, Hclb.
  destruct (recorded_fields t2 e2 l2 a1) as (_ & _ & _ & _ & Hc2 & Hh2 & _).
  destruct (recorded_fields t1 e1 l1 b1) as (_ & _ & _ & _ & Hc1 & Hh1 & _).
  fold a2 in Hc2, Hh2. fold b2 in Hc1, Hh1.
  (* both second calls return *)
  pose proof (reachable_bookkeeping _ _ _ _ Hr) as [Hrec _].
  pose proof (bookkeeping_handleEvent _handleStart _ _ _ l1 _ Ha1 Hrec) as [Hreca _].
  pose proof (bookkeeping_handleEvent _handleStart _ _ _ l2 _ Ha2 Hrec) as [Hrecb _].
  fold a1 in Hreca. fold b1 in Hrecb.
  assert (accepted (_client a1) t2 e2) as Ha2' by (by rewrite Hcla).
  assert (accepted (_client b1) t1 e1) as Ha1' by (by rewrite Hclb).
  destruct (handleEvent_accepted _handleStart _ _ _ l2 _ Ha2' Hreca) as (cma & ooa & -> & _).
  destruct (handleEvent_accepted _handleStart _ _ _ l1 _ Ha1' Hrecb) as (cmb & oob & -> & _).
  fold a2 b2. simpl.
  destruct (phase_set_top t2 e2 cma ooa a2) as [(Hka1 & _ & _ & Hka2 & Hka3) ->].
  destruct (phase_set_top t1 e1 cmb oob b2) as [(Hkb1 & _ & _ & Hkb2 & Hkb3) ->].
  split.
  - rewrite !top_phase_map. f_equal. apply calc_same_senders.
    destruct (recorded_props t2 e2 l2 a1) as [Hpa1 Hpa2].
    destruct (recorded_props t1 e1 l1 b1) as [Hpb1 Hpb2].
    pose proof (handleEvent_kept _handleStart t1 e1 l1 r) as (_ & _ & _ & Hus1 & Hthem1).
    pose proof (handleEvent_kept _handleStart t2 e2 l2 r) as (_ & _ & _ & Hus2 & Hthem2).
    destruct (recorded_props t1 e1 l1 r) as [Hp1 Hp2].
    destruct (recorded_props t2 e2 l2 r) as [Hp3 Hp4].
    fold a1 in Hus1, Hthem1. fold b1 in Hus2, Hthem2. fold a2 in Hpa1, Hpa2.
    fold b2 in Hpb1, Hpb2.
    repeat split.
    + by rewrite Hc2, Hc1, Hcla, Hclb.
    + by rewrite Hh2, Hh1, Hcha, Hchb.
    + by rewrite Hpa1, Hpb1, Hus1, Hus2, Hp1, Hp3.
    + by rewrite Hpa2, Hpb2, Hthem1, Hthem2, Hp2, Hp4.
    + intros k. by destruct (Hmaps k) as [-> _].
    + intros k. by destruct (Hmaps k) as [_ ->].
  - intros k sender. unfold _getEventBy.
    rewrite Hka1, Hka2, Hka3, Hkb1, Hkb2, Hkb3, Hc2, Hc1, Hcla, Hclb.
    destruct (Hmaps k) as [-> ->]. done.
Qed.

(** ** A start message on a new request *)

Lemma either_recorded_eq k type event isLiveEvent r :
  getSender event = getUserId (_client r) ∨ getSender event = otherUserId r →
  _getEventByEither k (recorded type event isLiveEvent r) =
  match Map_get k (_eventsByThem r) with
  | Some e =>
      if negb (bool_decide (getSender event = getUserId (_client r)))
         && bool_decide (type = k)
      then Some event else Some e
  | None => if bool_decide (type = k) then Some event else Map_get k (_eventsByUs r)
  end.
Proof.
  intros Hs. unfold _getEventByEither.
  rewrite Map_get_recorded_them, Map_get_recorded_us.
  destruct (decide (getSender event = getUserId (_client r))) as [Hme|Hme].
  - rewrite (bool_decide_eq_true_2 _ Hme). simpl. by repeat case_match.
  - destruct Hs as [?|Hother]; [done|].
    rewrite (bool_decide_eq_false_2 _ Hme), (bool_decide_eq_true_2 _ Hother). simpl.
    by repeat case_match.
Qed.

Lemma calc_start_only r st :
  _getEventByEither CANCEL_TYPE r = None →
  _getEventByEither REQUEST_TYPE r = None →
  _getEventByEither START_TYPE r = Some st →
  prop_get DONE_TYPE (_eventsByUs r) = None →
  _calculatePhaseTransitions r =
  if canCreateRequest (channel r) START_TYPE
  then [mkTransition PHASE_UNSENT None; mkTransition (PhaseStr START_TYPE) (Some st)]
  else [mkTransition PHASE_UNSENT None].
Proof.
  intros H1 H2 H3 H4. unfold _calculatePhaseTransitions.
  rewrite H1, H2, H3, H4. simpl. by destruct (canCreateRequest (channel r) START_TYPE).
Qed.

(** A start message as the first message of a request opens it only on
    a channel whose class lets a start message create a request: there
    the phase becomes the start event type and one change is notified;
    elsewhere the request stays Unsent and silent.  Either way no
    verifier is created and [started] is false. *)
Theorem start_on_new_request channel verificationMethods client start isLiveEvent :
  accepted client START_TYPE start →
  getSender start = getUserId client ∨ getSender start = userId channel →
  let r := snd (handleEvent _handleStart START_TYPE start isLiveEvent
                  (constructor channel verificationMethods client)) in
  _phase r = (if canCreateRequest channel START_TYPE
              then PhaseStr START_TYPE else PHASE_UNSENT) ∧
  emitted r = (if canCreateRequest channel START_TYPE then ["change"] else []) ∧
  _verifier r = None ∧
  started r = false.
Proof.
  intros Hacc Hs r. set (r0 := constructor channel verificationMethods client).
  assert (_phase r = if canCreateRequest channel START_TYPE
                     then PhaseStr START_TYPE else PHASE_UNSENT) as Hp.
  { destruct (handleEvent_accepted _handleStart [] START_TYPE start isLiveEvent r0
                Hacc (on_record_new _ _ _)) as (cm & oo & E & _).
    unfold r. fold r0. rewrite E. simpl.
    destruct (phase_set_top START_TYPE start cm oo (recorded START_TYPE start isLiveEvent r0))
      as [_ ->].
    rewrite (calc_start_only _ start).
    - destruct (recorded_fields START_TYPE start isLiveEvent r0) as (_&_&_&_&_& -> &_).
      simpl. by destruct (canCreateRequest channel START_TYPE).
    - rewrite either_recorded_eq by done. simpl. by rewrite !Map_get_new.
    - rewrite either_recorded_eq by done. simpl. by rewrite !Map_get_new.
    - rewrite either_recorded_eq by done. simpl. by rewrite !Map_get_new.
    - unfold prop_get. destruct (recorded_props START_TYPE start isLiveEvent r0) as [-> _].
      apply lookup_empty. }
  split; [exact Hp|].
  pose proof (handleEvent_emitted START_TYPE start isLiveEvent r0) as He.
  pose proof (handleEvent_fields _handleStart START_TYPE start isLiveEvent r0) as (Hv & _ & _).
  cbv zeta in He, Hv. unfold r0 in He, Hv. fold r in He, Hv.
  split; [|split; [by apply Hv|]].
  - rewrite He, Hp. simpl. by destruct (canCreateRequest channel START_TYPE).
  - unfold started. rewrite Hp. by destruct (canCreateRequest channel START_TYPE).
Qed.

(** ** Who stays an active party after a request and a ready message *)

(** How a request and a ready message, handled in this order on a new
    request, can reach phase Ready: one of them is by the local user, the
    other by the counterparty. *)
Lemma pair_reaches_ready ch reg cl rq rd live1 live2 :
  accepted cl REQUEST_TYPE rq →
  accepted cl READY_TYPE rd →
  let r0 := constructor ch reg cl in
  let r1 := snd (handleEvent _handleStart REQUEST_TYPE rq live1 r0) in
  let r2 := snd (handleEvent _handleStart READY_TYPE rd live2 r1) in
  _phase r2 = PHASE_READY →
  _calculatePhaseTransitions (recorded READY_TYPE rd live2 r1) =
    [mkTransition PHASE_UNSENT None; mkTransition PHASE_REQUESTED (Some rq);
     mkTransition PHASE_READY (Some rd)] ∧
  _client r1 = cl ∧
  ((getSender rq = getUserId cl ∧ getSender rd ≠ getUserId cl) ∨
   (getSender rq ≠ getUserId cl ∧ getSender rq = userId ch ∧
    getSender rd = getUserId cl)).
Proof.
  intros Hacc1 Hacc2 r0 r1 r2 Hph.
  assert (Hr1 : reachable _hasValidPreStartPhase _handleStart [(REQUEST_TYPE, rq)] r1).
  { apply (reachable_call _ _ [] r0 (Some (REQUEST_TYPE, rq))); by constructor. }
  pose proof (reachable_bookkeeping _ _ _ _ Hr1) as [Hrec1 Hph1].
  pose proof (handleEvent_kept _handleStart REQUEST_TYPE rq live1 r0)
    as (Hcl1 & Hu1 & _ & Hus1 & Hthem1).
  fold r1 in Hcl1, Hu1, Hus1, Hthem1.
  destruct (recorded_fields REQUEST_TYPE rq live1 r0) as (_ & _ & _ & _ & Hcl0 & Hch0 & _).
  rewrite Hcl0 in Hcl1. rewrite Hch0 in Hu1. simpl in Hcl1, Hu1.
  assert (Hacc2' : accepted (_client r1) READY_TYPE rd) by (by rewrite Hcl1).
  destruct (handleEvent_accepted _handleStart _ _ _ live2 _ Hacc2' Hrec1)
    as (cm & oo & E2 & _).
  set (r2' := recorded READY_TYPE rd live2 r1) in *.
  assert (top_phase (_calculatePhaseTransitions r2') = PHASE_READY) as Htop.
  { destruct (phase_set_top READY_TYPE rd cm oo r2') as [_ <-].
    unfold r2 in Hph. by rewrite E2 in Hph. }
  destruct (calc_top_ready _ Htop) as (e1 & e2 & G1 & G2 & Hcalc).
  assert (_client r2' = cl) as Hcl2.
  { unfold r2'. destruct (recorded_fields READY_TYPE rd live2 r1) as (_&_&_&_& -> &_). done. }
  unfold _getEventByEither, _getEventByOther in G1, G2.
  unfold r2' in G1, G2.
  rewrite !Map_get_recorded_us, !Map_get_recorded_them, Hus1, Hthem1,
    !Map_get_recorded_us, !Map_get_recorded_them in G1.
  rewrite !Map_get_recorded_us, !Map_get_recorded_them, Hus1, Hthem1,
    !Map_get_recorded_us, !Map_get_recorded_them in G2.
  fold r2' in G2. rewrite Hcl2 in G2.
  unfold otherUserId in G1, G2. rewrite Hcl1, Hu1 in G1, G2. simpl in G1, G2.
  rewrite !Map_get_new in G1, G2.
  rewrite ?andb_false_r, ?andb_true_r in G1, G2.
  assert (e1 = rq ∧ e2 = rd ∧
          ((getSender rq = getUserId cl ∧ getSender rd ≠ getUserId cl) ∨
           (getSender rq ≠ getUserId cl ∧ getSender rq = userId ch ∧
            getSender rd = getUserId cl)))
    as (-> & -> & Hcase).
  { repeat (case_bool_decide; simpl in G1, G2; simplify_eq);
      repeat (case_bool_decide; simpl in *; simplify_eq); try done.
    all: naive_solver. }
  done.
Qed.

(** After a request and a ready message on a new request have reached
    phase Ready, the request is still an active party only if both
    messages were live and the ready message was sent by the local
    device.  A requester receiving the counterparty's ready message
    becomes observe-only.  No verifier exists yet. *)
Theorem active_party_after_pair ch reg cl rq rd live1 live2 :
  accepted cl REQUEST_TYPE rq →
  accepted cl READY_TYPE rd →
  let r0 := constructor ch reg cl in
  let r1 := snd (handleEvent _handleStart REQUEST_TYPE rq live1 r0) in
  let r2 := snd (handleEvent _handleStart READY_TYPE rd live2 r1) in
  _phase r2 = PHASE_READY →
  _observeOnly r2 = negb (live1 && live2 && _wasSentByOwnDevice rd r0) ∧
  (getSender rd ≠ getUserId cl → _observeOnly r2 = true) ∧
  _verifier r2 = None.
Proof.
  intros Hacc1 Hacc2 r0 r1 r2 Hph.
  destruct (pair_reaches_ready ch reg cl rq rd live1 live2 Hacc1 Hacc2 Hph)
    as (Hcalc & Hcl1 & Hcase).
  fold r0 r1 in Hcalc, Hcl1.
  destruct (accepted_methods _ _ _ Hacc1 (or_introl eq_refl)) as (c1 & l1 & Hc1 & Hl1).
  destruct (accepted_methods _ _ _ Hacc2 (or_intror eq_refl)) as (c2 & l2 & Hc2 & Hl2).
  assert (_phase r1 = PHASE_REQUESTED ∧ _verifier r1 = None ∧
          _observeOnly r1 =
            negb live1 || (_wasSentByOwnUser rq r0 && negb (_wasSentByOwnDevice rq r0)))
    as (Hp1 & Hv1 & Hoo1).
  { unfold r1, r0. rewrite (fresh_request _handleStart _ _ _ _ _ _ _ Hc1 Hl1).
    - simpl. fold r0.
      by destruct (recorded_fields REQUEST_TYPE rq live1 r0) as (_ & _ & -> & _).
    - destruct Hcase as [[? _]|(_ & ? & _)]; auto. }
  assert (∀ e, _wasSentByOwnDevice e r1 = _wasSentByOwnDevice e r0) as Hown.
  { intros e. unfold _wasSentByOwnDevice, _wasSentByOwnUser. by rewrite Hcl1. }
  assert (_observeOnly r2 = negb (live1 && live2 && _wasSentByOwnDevice rd r0) ∧
          _verifier r2 = None) as [Hoo Hv].
  { unfold r2. rewrite (ready_after_request _handleStart _ _ _ _ _ _ Hcalc Hp1 Hv1 Hc2 Hl2).
    simpl. rewrite Hown. split.
    - assert (_observeOnly (recorded READY_TYPE rd live2 r1) = _observeOnly r1 || negb live2)
        as ->.
      { unfold recorded. destruct live2; simpl; repeat case_match; simpl;
          by rewrite ?orb_false_r, ?orb_true_r. }
      rewrite Hoo1.
      unfold _wasSentByOwnDevice, _wasSentByOwnUser, r0. simpl.
      destruct Hcase as [[Q D]|(Q & _ & D)].
      + rewrite (bool_decide_eq_false_2 _ D). simpl.
        by rewrite !orb_true_r, !andb_false_r.
      + rewrite (bool_decide_eq_false_2 _ Q). simpl.
        by destruct live1, live2; simpl; repeat (try case_match; simpl).
    - by destruct (recorded_fields READY_TYPE rd live2 r1) as (_ & _ & -> & _). }
  split; [exact Hoo|]. split; [|exact Hv].
  intros D. rewrite Hoo. unfold _wasSentByOwnDevice, _wasSentByOwnUser, r0. simpl.
  rewrite (bool_decide_eq_false_2 _ D). simpl. by rewrite andb_false_r.
Qed.

(** ** The phase can move backwards *)

Lemma calc_top_ready_only r :
  top_phase (_calculatePhaseTransitions r) = PHASE_READY →
  _getEventByEither CANCEL_TYPE r = None ∧ _getEventByEither START_TYPE r = None.
Proof.
  unfold _calculatePhaseTransitions, top_phase.
  destruct (_getEventByEither CANCEL_TYPE r); [done|].
  destruct (_getEventByEither REQUEST_TYPE r) as [e1|]; simpl.
  - destruct (_getEventByOther READY_TYPE (getSender e1) r) as [e2|]; simpl.
    + destruct (_getEventByEither START_TYPE r); simpl; [by case_match|done].
    + repeat (case_match; simpl in *; simplify_eq); done.
  - repeat (case_match; simpl in *; simplify_eq); done.
Qed.

Lemma either_None k r :
  _getEventByEither k r = None →
  Map_get k (_eventsByThem r) = None ∧ Map_get k (_eventsByUs r) = None.
Proof. unfold _getEventByEither. by case_match. Qed.

(** A request in phase Ready whose request message was the local user's
    goes back to phase Requested, with a change notification, when the
    counterparty's own request message arrives and the local user has
    sent no ready message: recorded phases are not monotone. *)
Theorem phase_goes_back history r request isLiveEvent :
  reachable _hasValidPreStartPhase _handleStart history r →
  _phase r = PHASE_READY →
  Map_get REQUEST_TYPE (_eventsByThem r) = None →
  Map_get READY_TYPE (_eventsByUs r) = None →
  accepted (_client r) REQUEST_TYPE request →
  getSender request ≠ getUserId (_client r) →
  getSender request = otherUserId r →
  let r' := snd (handleEvent _handleStart REQUEST_TYPE request isLiveEvent r) in
  _phase r' = PHASE_REQUESTED ∧ emitted r' = "change" :: emitted r.
Proof.
  intros Hr Hp Hrq Hrd Hacc Hme Hother r'.
  pose proof (reachable_bookkeeping _ _ _ _ Hr) as [Hrec Hph].
  rewrite Hp in Hph. symmetry in Hph.
  destruct (calc_top_ready_only _ Hph) as [[Hc1 Hc2]%either_None [Hs1 Hs2]%either_None].
  assert (_phase r' = PHASE_REQUESTED) as Hp'.
  { destruct (handleEvent_accepted _handleStart _ _ _ isLiveEvent _ Hacc Hrec)
      as (cm & oo & E & _).
    unfold r'. rewrite E. simpl.
    destruct (phase_set_top REQUEST_TYPE request cm oo
                (recorded REQUEST_TYPE request isLiveEvent r)) as [_ ->].
    rewrite (calc_requested _ request); [done|..].
    - rewrite either_recorded_eq by auto. rewrite Hc1, Hc2.
      by rewrite bool_decide_eq_false_2 by distinct_types.
    - rewrite either_recorded_eq by auto. rewrite Hrq.
      by rewrite bool_decide_eq_true_2.
    - unfold _getEventByOther.
      destruct (recorded_fields REQUEST_TYPE request isLiveEvent r) as (_&_&_&_& -> &_).
      rewrite (bool_decide_eq_false_2 _ Hme), Map_get_recorded_us.
      by rewrite (bool_decide_eq_false_2 _ Hme).
    - rewrite either_recorded_eq by auto. rewrite Hs1, Hs2.
      by rewrite bool_decide_eq_false_2 by distinct_types. }
  split; [exact Hp'|].
  pose proof (handleEvent_emitted REQUEST_TYPE request isLiveEvent r) as He.
  cbv zeta in He. fold r' in He. rewrite He, Hp', Hp. done.
Qed.

(** ** Outbound calls *)

(** No outbound call changes the phase, emits a change notification, or
    touches the bookkeeping, the common methods, the observe-only flag or
    the event references, also when it throws: the phase moves only when
    an inbound message is handled. *)
Theorem outbound_calls_move_nothing r :
  (∀ method targetDevice,
     unmoved r (snd (beginKeyVerification _hasValidPreStartPhase method targetDevice r))) ∧
  unmoved r (snd (sendRequest r)) ∧
  (∀ reason code, unmoved r (snd (cancel reason code r))) ∧
  unmoved r (snd (accept r)).
Proof.
  unfold unmoved.
  split; [|split; [|split]]; intros;
    unfold beginKeyVerification, sendRequest, cancel, accept; run; simpl;
    repeat (case_match; simpl in *; simplify_eq); done.
Qed.

(** Nothing ever assigns [_requestEvent] or [_readyEvent]. *)
Lemma reachable_no_event_references history r :
  reachable _hasValidPreStartPhase _handleStart history r →
  _requestEvent r = None ∧ _readyEvent r = None.
Proof.
  induction 1 as [ch reg cl|history r handled r' _ [IH1 IH2] Hcall]; [done|].
  destruct Hcall as [type event live _|method target| |reason code|].
  - destruct (handleEvent_untouched type event live r) as (_&_&_&_& -> & ->). done.
  - unfold beginKeyVerification. run. simpl.
    repeat (case_match; simpl in *; simplify_eq); done.
  - unfold sendRequest. run. simpl. repeat (case_match; simpl in *; simplify_eq); done.
  - unfold cancel. run. simpl. repeat (case_match; simpl in *; simplify_eq); done.
  - unfold accept. run. simpl. repeat (case_match; simpl in *; simplify_eq); done.
Qed.

(** ** Beginning the verification *)

Lemma set_verifier_same r : set_verifier (_verifier r) r = r.
Proof. by destruct r. Qed.

(** On the class as it stands no request ever has a verifier:
    [handleEvent] creates none, and [beginKeyVerification] gets no
    further than its call of [_hasValidPreStartPhase], which nothing
    defines.  On every reachable request [beginKeyVerification] therefore
    returns [undefined] when the request is observe-only and throws a
    TypeError when it is not, whatever the method and the target, and
    leaves the request as it was. *)
Theorem verifier_is_never_created history r :
  reachable hasValidPreStartPhase_undefined _handleStart history r →
  _verifier r = None ∧
  ∀ method targetDevice,
    beginKeyVerification hasValidPreStartPhase_undefined method targetDevice r =
    (if _observeOnly r then Returned None else Thrown TypeError, r).
Proof.
  intros Hr.
  assert (_verifier r = None) as Hv.
  { induction Hr as [ch reg cl|history r handled r' _ IH Hcall]; [done|].
    destruct Hcall as [type event live _|method target| |reason code|].
    - by apply (handleEvent_fields _handleStart).
    - unfold beginKeyVerification. run. unfold id. rewrite IH.
      by destruct (_observeOnly r).
    - unfold sendRequest. run. unfold id. by case_match.
    - unfold cancel. run. unfold id. rewrite IH. by case_match.
    - unfold accept. run. unfold id. by case_match. }
  split; [exact Hv|]. intros method targetDevice.
  unfold beginKeyVerification. run. unfold id. rewrite Hv.
  destruct (_observeOnly r); simpl; by rewrite ?Hv.
Qed.

(** [_createVerifier] as [beginKeyVerification] calls it, without start
    event, on a reachable request.  With a target device the verifier is
    addressed to that device and carries no start event, and the result
    is [undefined] when the registry lacks the method.  Without one the
    call throws for want of a target, whether or not the registry has the
    method: the request and ready events the target would be taken from
    are never stored. *)
Theorem createVerifier_without_start history r method targetDevice :
  reachable _hasValidPreStartPhase _handleStart history r →
  _createVerifier (Some method) None targetDevice r =
  match targetDevice with
  | Some target =>
      Returned ((fun ctor => new_verifier method ctor (target_userId target)
                               (Some (target_deviceId target)) None)
                <$> methods_get method (_verificationMethods r))
  | None => Thrown NoTargetError
  end.
Proof.
  intros [Hrq Hrd]%reachable_no_event_references.
  unfold _createVerifier, _getVerifierTarget. rewrite Hrq, Hrd.
  destruct targetDevice as [target|]; simpl; [|done].
  by destruct (methods_get method (_verificationMethods r)).
Qed.

(** Calling [beginKeyVerification] a second time with the same arguments
    gives the completion of the first call again and changes nothing
    more; in particular a verifier is created at most once. *)
Theorem beginKeyVerification_idempotent r method targetDevice :
  let first := beginKeyVerification _hasValidPreStartPhase method targetDevice r in
  beginKeyVerification _hasValidPreStartPhase method targetDevice (snd first) = first.
Proof.
  unfold beginKeyVerification. run. unfold id.
  destruct (_observeOnly r) eqn:Hoo; simpl; [by rewrite Hoo|].
  destruct (_verifier r) as [v|] eqn:Hv; simpl;
    [by repeat (rewrite ?Hoo, ?Hv; simpl)|].
  destruct (_hasValidPreStartPhase r) as [[]|e] eqn:Hp; simpl;
    [|by repeat (rewrite ?Hoo, ?Hv, ?Hp; simpl)..].
  destruct (negb (bool_decide (length (_commonMethods r) = 0%nat)) &&
            negb (bool_decide (method ∈ _commonMethods r))) eqn:Hm; simpl;
    [by repeat (rewrite ?Hoo, ?Hv, ?Hp, ?Hm; simpl)|].
  destruct (_createVerifier (Some method) None targetDevice r) as [[v|]|e] eqn:Hc; simpl.
  - by rewrite Hoo.
  - assert (set_verifier None r = r) as Hs by (by rewrite <- Hv, set_verifier_same).
    by repeat (rewrite ?Hs, ?Hoo, ?Hv, ?Hp, ?Hm, ?Hc; simpl).
  - by repeat (rewrite ?Hoo, ?Hv, ?Hp, ?Hm, ?Hc; simpl).
Qed.

(** [_createVerifier] for a start event: when the event was not sent by
    the local device the verifier is addressed to its sender and device
    and carries the event; when it was, a reachable request has nothing
    to take a target from and the call throws. *)
Theorem createVerifier_for_start history r method ctor start :
  reachable _hasValidPreStartPhase _handleStart history r →
  methods_get method (_verificationMethods r) = Some ctor →
  _createVerifier (Some method) (Some start) None r =
  if _wasSentByOwnDevice start r then Thrown NoTargetError
  else Returned (Some (new_verifier method ctor (getSender start)
                         (getContent start ≫= from_device) (Some start))).
Proof.
  intros [Hrq Hrd]%reachable_no_event_references Hm.
  unfold _createVerifier, _getVerifierTarget. rewrite Hrq, Hrd.
  destruct (_wasSentByOwnDevice start r); simpl; [done|].
  rewrite Hm. simpl. by destruct (getContent start).
Qed.

(** ** Cancelling locally, and the echo *)

(** On an active party without verifier, [cancel] sends one cancel
    message with the given code and reason and leaves the phase alone;
    when that message comes back from the local user the phase becomes
    Cancelled, and [_cancellingUserId] is the local user. *)
Theorem local_cancel_then_echo r reason code echo isLiveEvent :
  _observeOnly r = false →
  _verifier r = None →
  _phase r ≠ PHASE_CANCELLED →
  getSender echo = getUserId (_client r) →
  let r1 := snd (cancel reason code r) in
  let r2 := snd (handleEvent _handleStart CANCEL_TYPE echo isLiveEvent r1) in
  sent (channel r1) =
    mkOutbound CANCEL_TYPE (mkContent None None None (Some code) (Some reason))
    :: sent (channel r) ∧
  _phase r1 = _phase r ∧
  _phase r2 = PHASE_CANCELLED ∧
  _cancellingUserId r2 = Some (getUserId (_client r)).
Proof.
  intros Hoo Hv Hp Hs r1 r2.
  assert (r1 = set_channel
                 (send CANCEL_TYPE (mkContent None None None (Some code) (Some reason))
                    (channel r))
                 (set_cancellingUserId (Some (getUserId (_client r))) r)) as Hr1.
  { unfold r1, cancel. run. unfold id. rewrite Hoo, Hv.
    by rewrite (bool_decide_eq_false_2 _ Hp). }
  split; [by rewrite Hr1|]. split; [by rewrite Hr1|].
  assert (getSender echo = getUserId (_client r1)) as Hs1 by (by rewrite Hr1).
  destruct (handleEvent_cancel echo isLiveEvent r1 (or_introl Hs1)) as (r' & E & Hp').
  destruct (handleEvent_fields _handleStart CANCEL_TYPE echo isLiveEvent r1) as (_ & Hc & _).
  fold r2 in Hc. unfold r2 at 1. rewrite E. simpl.
  split; [exact Hp'|]. rewrite Hc. by rewrite Hr1.
Qed.

(** ** The first request message, sent or received *)

(** A request message handled on a request that has no events on record
    yet, is Unsent and has no verifier. *)
Lemma first_request r rq live c l :
  getContent rq = Some c → methods c = Some l →
  getSender rq = getUserId (_client r) ∨ getSender rq = otherUserId r →
  _eventsByUs r = new_Map → _eventsByThem r = new_Map →
  _phase r = PHASE_UNSENT → _verifier r = None →
  handleEvent _handleStart REQUEST_TYPE rq live r =
  (Returned tt,
   emit "change" (set_phase PHASE_REQUESTED
     (negotiated
        (if _wasSentByOwnDevice rq r then _commonMethods r
         else List.filter (fun m => methods_has m (_verificationMethods r)) l)
        (negb live || _observeOnly r
         || (_wasSentByOwnUser rq r && negb (_wasSentByOwnDevice rq r)))
        (recorded REQUEST_TYPE rq live r)))).
Proof.
  intros Hc Hl Hs Hus Hthem Hp Hv. rewrite handleEvent_eq. cbv zeta.
  set (r1 := recorded REQUEST_TYPE rq live r).
  destruct (recorded_fields REQUEST_TYPE rq live r) as (_ & Hcm & Hv' & _ & Hcl & _ & Hreg).
  fold r1 in Hcm, Hv', Hcl, Hreg.
  assert (_calculatePhaseTransitions r1 =
          [mkTransition PHASE_UNSENT None; mkTransition PHASE_REQUESTED (Some rq)]) as Hcalc.
  { apply calc_requested; unfold r1.
    - rewrite either_recorded_eq by done. rewrite Hus, Hthem, !Map_get_new.
      by rewrite bool_decide_eq_false_2 by distinct_types.
    - rewrite either_recorded_eq by done. rewrite Hthem, !Map_get_new.
      by rewrite bool_decide_eq_true_2.
    - unfold _getEventByOther.
      rewrite Map_get_recorded_us, Map_get_recorded_them, Hus, Hthem, !Map_get_new.
      rewrite (bool_decide_eq_false_2 (REQUEST_TYPE = READY_TYPE)) by distinct_types.
      rewrite !andb_false_r. by case_match.
    - rewrite either_recorded_eq by done. rewrite Hus, Hthem, !Map_get_new.
      by rewrite bool_decide_eq_false_2 by distinct_types. }
  rewrite (newTransitions_eq _ _ Hcalc).
  assert (_phase r1 = PHASE_UNSENT) as -> by (unfold r1; by rewrite recorded_phase).
  change (slice _ _) with [mkTransition PHASE_REQUESTED (Some rq)].
  simpl. unfold mbind, Method_bind.
  rewrite (transition_requested _handleStart _ _ _ _ Hc Hl). simpl.
  unfold phase_set, forwarded. simpl. rewrite Hv', Hv. simpl.
  unfold _wasSentByOwnDevice, _wasSentByOwnUser. rewrite Hcm, Hcl, Hreg.
  do 3 f_equal. unfold r1, recorded. destruct live; simpl; repeat case_match; simpl;
    by rewrite ?orb_true_r.
Qed.

(** Sending the request and seeing it come back: [sendRequest] on a new
    request sends one request message listing the registry's methods and
    changes no phase; once that message, sent by the local device, is
    handled live, the request is in phase Requested and an active party,
    has no common methods yet, and [accept] does nothing, the request
    being the local device's own. *)
Theorem sendRequest_then_echo ch reg cl echo content advertised :
  getSender echo = getUserId cl →
  getContent echo = Some content →
  from_device content = Some (getDeviceId cl) →
  methods content = Some advertised →
  let r1 := snd (sendRequest (constructor ch reg cl)) in
  let r2 := snd (handleEvent _handleStart REQUEST_TYPE echo true r1) in
  (sent (channel r1) =
     mkOutbound REQUEST_TYPE (mkContent (Some (methods_keys reg)) None None None None)
     :: sent ch ∧
   _phase r1 = PHASE_UNSENT) ∧
  _phase r2 = PHASE_REQUESTED ∧
  _observeOnly r2 = false ∧
  _commonMethods r2 = [] ∧
  accept r2 = (Returned tt, r2).
Proof.
  intros Hs Hc Hd Hl r1 r2.
  assert (r1 = set_channel
                 (send REQUEST_TYPE (mkContent (Some (methods_keys reg)) None None None None) ch)
                 (set_initiatedByMe (Some true) (constructor ch reg cl))) as Hr1.
  { unfold r1, sendRequest. run. done. }
  split; [by rewrite Hr1|].
  assert (_wasSentByOwnDevice echo r1 = true) as Hown.
  { unfold _wasSentByOwnDevice, _wasSentByOwnUser. rewrite Hr1. simpl.
    rewrite Hc. simpl. rewrite Hd. simpl.
    rewrite !bool_decide_eq_true_2; done. }
  destruct (handleEvent_untouched REQUEST_TYPE echo true r1) as (_ & _ & _ & Hi & _).
  fold r2 in Hi.
  assert (_initiatedByMe r2 = Some true) as Hi2 by (by rewrite Hi, Hr1).
  assert (_phase r2 = PHASE_REQUESTED ∧ _observeOnly r2 = false ∧ _commonMethods r2 = [])
    as (Hp2 & Ho2 & Hc2).
  { unfold r2.
    rewrite (first_request r1 echo true content advertised Hc Hl)
      by (rewrite Hr1; simpl; auto).
    rewrite Hown. simpl. rewrite andb_false_r. by rewrite ?Hr1. }
  repeat split; try done.
  unfold accept. run. unfold id. rewrite Hi2. simpl. by rewrite andb_false_r.
Qed.

(** Accepting the counterparty's live request, handled on a new request:
    one ready message goes out, listing every method of the local
    registry in registry order (not only the common ones), and the phase
    stays Requested. *)
Theorem accept_after_their_request ch reg cl request content advertised :
  getSender request ≠ getUserId cl →
  getSender request = userId ch →
  getContent request = Some content →
  methods content = Some advertised →
  let r := snd (handleEvent _handleStart REQUEST_TYPE request true (constructor ch reg cl)) in
  let r' := snd (accept r) in
  fst (accept r) = Returned tt ∧
  sent (channel r') =
    mkOutbound READY_TYPE (mkContent (Some (methods_keys reg)) None None None None)
    :: sent ch ∧
  _phase r' = PHASE_REQUESTED ∧
  _commonMethods r' = List.filter (fun m => methods_has m reg) advertised.
Proof.
  intros Hne Hs Hc Hl r r'.
  assert (_wasSentByOwnUser request (constructor ch reg cl) = false) as Hu.
  { unfold _wasSentByOwnUser. simpl. by rewrite bool_decide_eq_false_2. }
  destruct (handleEvent_untouched REQUEST_TYPE request true (constructor ch reg cl))
    as (Hch & Hreg & _ & Hi & _).
  fold r in Hch, Hreg, Hi. simpl in Hch, Hreg, Hi.
  assert (_phase r = PHASE_REQUESTED ∧ _observeOnly r = false ∧
          _commonMethods r = List.filter (fun m => methods_has m reg) advertised)
    as (Hp & Ho & Hcm).
  { unfold r.
    rewrite (first_request (constructor ch reg cl) request true content advertised Hc Hl)
      by (simpl; auto).
    unfold _wasSentByOwnDevice. rewrite Hu. simpl. done. }
  assert (accept r =
          (Returned tt,
           set_channel (send READY_TYPE (mkContent (Some (methods_keys reg)) None None None None)
                          (channel r)) r)) as E.
  { unfold accept. run. unfold id. rewrite Hp, Ho, Hi, Hreg. simpl. done. }
  unfold r'. rewrite E. simpl. by rewrite Hch.
Qed.

(** ** What [validateEvent] asks of the content *)

Lemma known_types_have_prefix type :
  type = REQUEST_TYPE ∨ type = READY_TYPE ∨ type = START_TYPE →
  String.prefix EVENT_PREFIX type = true.
Proof. by intros [->|[->| ->]]. Qed.

(** [validateEvent] throws exactly on a request, ready or start message
    without content, and then a TypeError; any other input returns. *)
Theorem validateEvent_throws_iff now type event timestamp client e :
  validateEvent now type event timestamp client = Thrown e ↔
  e = TypeError ∧ getContent event = None ∧
  (type = REQUEST_TYPE ∨ type = READY_TYPE ∨ type = START_TYPE).
Proof.
  unfold validateEvent.
  destruct (String.prefix EVENT_PREFIX type) eqn:Hpre; simpl.
  2: { split; [done|]. intros (_ & _ & H).
       apply known_types_have_prefix in H. congruence. }
  destruct (getContent event) as [c|].
  - split; [|intros (_ & H & _); discriminate H].
    repeat case_bool_decide; simpl; repeat case_match; done.
  - repeat case_bool_decide; simpl;
      (split; [intros Hv; repeat case_match; try discriminate Hv; injection Hv as <-; auto 6
              |intros (-> & _ & [Ht|[Ht|Ht]]); done]).
Qed.

(** Without a timestamp, [validateEvent] accepts exactly the messages
    whose type has the verification prefix and that carry, for a request
    or ready message, a list of methods (an empty one will do) and, for a
    request, ready or start message, a non-empty sending device; nothing
    is asked of the content of any other type. *)
Theorem validateEvent_content_checks now type event client :
  validateEvent now type event None client = Returned true ↔
  String.prefix EVENT_PREFIX type = true ∧
  (type = REQUEST_TYPE ∨ type = READY_TYPE →
   ∃ c l, getContent event = Some c ∧ methods c = Some l) ∧
  (type = REQUEST_TYPE ∨ type = READY_TYPE ∨ type = START_TYPE →
   ∃ c d, getContent event = Some c ∧ from_device c = Some d ∧ d ≠ "").
Proof.
  assert (∀ d : string, String.length d = 0%nat ↔ d = "") as Hlen
    by (intros []; split; done).
  unfold validateEvent.
  destruct (String.prefix EVENT_PREFIX type) eqn:Hpre; simpl;
    [|split; [done|by intros (? & _)]].
  destruct (getContent event) as [c|].
  - assert (∀ l : list string, bool_decide (is_Some (Some l)) = true) as Hsome by done.
    assert (bool_decide (is_Some (@None (list string))) = false) as Hnone by done.
    destruct (methods c) as [l|] eqn:Hm, (from_device c) as [d|] eqn:Hd;
      rewrite ?Hsome, ?Hnone; clear Hsome Hnone;
      repeat case_bool_decide; simpl; rewrite ?Hlen in *;
      (split;
       [intros Hv; try discriminate Hv;
        (split; [done|]); split; intros Ht;
        first [ by (exfalso; tauto)
              | eexists _, _; split; [reflexivity|];
                first [ eassumption | split; [eassumption|assumption] ] ]
       |intros (_ & H1' & H2'); try done; exfalso;
        first [ solve [ (destruct H1' as (c' & l' & ? & ?); [tauto|]); by simplify_eq ]
              | solve [ (destruct H2' as (c' & d' & ? & ? & ?); [tauto|]); by simplify_eq ] ]]).
  - repeat case_bool_decide; simpl;
      (split;
       [intros Hv; try discriminate Hv;
        (split; [done|]); split; intros Ht; exfalso; tauto
       |intros (_ & H1' & H2'); try done; exfalso;
        first [ solve [ (destruct H1' as (c' & l' & ? & ?); [tauto|]); done ]
              | solve [ (destruct H2' as (c' & d' & ? & ? & ?); [tauto|]); done ] ]]).
Qed.

End Extras.

(** * Further examples *)

Lemma reachable_requested_by_bob :
  reachable hasValidPreStartPhase_spec handleStart_spec
    [(REQUEST_TYPE, Example.request_by_bob)] Scenario.requested_by_bob.
Proof. apply reachable_example. vm_compute. reflexivity. Defined.

Lemma reachable_readied_by_bob :
  reachable hasValidPreStartPhase_spec handleStart_spec
    [(READY_TYPE, Scenario.ready_by_bob); (REQUEST_TYPE, Example.request_by_alices_phone)]
    Scenario.readied_by_bob.
Proof.
  apply (reachable_call _ _ [(REQUEST_TYPE, Example.request_by_alices_phone)]
           (snd (handleEvent handleStart_spec REQUEST_TYPE Example.request_by_alices_phone
                   true Example.fresh))
           (Some (READY_TYPE, Scenario.ready_by_bob))).
  - apply reachable_example. vm_compute. reflexivity.
  - apply (call_handleEvent _ _ _ READY_TYPE Scenario.ready_by_bob true).
    exists 0, None. vm_compute. reflexivity.
Defined.

(** Bob's request changes the phase of a new request, and is notified
    once. *)
Lemma handleEvent_notifies_iff_phase_changes_witness :
  _phase Scenario.requested_by_bob ≠ _phase Example.fresh ∧
  emitted Scenario.requested_by_bob = ["change"].
Proof.
  assert (_phase Scenario.requested_by_bob ≠ _phase Example.fresh) as Hp
    by (intros E; vm_compute in E; discriminate E).
  split; [exact Hp|].
  destruct (handleEvent_notifies_iff_phase_changes handleStart_spec REQUEST_TYPE
              Example.request_by_bob true Example.fresh) as [_ [H _]].
  exact (H Hp).
Defined.

(** Bob's cancel message, on a hitherto unused request and not live. *)
Lemma cancel_always_wins_witness :
  ∃ r', handleEvent handleStart_spec CANCEL_TYPE Example.cancel_by_bob false Example.fresh
        = (Returned tt, r') ∧
        _phase r' = PHASE_CANCELLED ∧ cancelled r' = true ∧ pending r' = false.
Proof.
  apply (cancel_always_wins handleStart_spec Example.cancel_by_bob false Example.fresh).
  right. reflexivity.
Defined.

(** Carol's request message changes nothing on Alice's request with Bob. *)
Lemma stranger_is_ignored_witness :
  handleEvent handleStart_spec REQUEST_TYPE Scenario.request_by_carol true
    Scenario.requested_by_bob
  = (Returned tt, Scenario.requested_by_bob).
Proof.
  apply (stranger_is_ignored hasValidPreStartPhase_spec handleStart_spec
           [(REQUEST_TYPE, Example.request_by_bob)] Scenario.requested_by_bob
           REQUEST_TYPE Scenario.request_by_carol true).
  - exact reachable_requested_by_bob.
  - intros E. vm_compute in E. discriminate E.
  - intros E. vm_compute in E. discriminate E.
Defined.

(** After Bob's request the request is pending, neither started nor
    done. *)
Lemma reachable_phases_witness :
  let r := Scenario.requested_by_bob in
  _phase r ∈ [PHASE_UNSENT; PHASE_REQUESTED; PHASE_READY; PHASE_CANCELLED;
              PhaseStr START_TYPE] ∧
  started r = false ∧ done r = false ∧
  pending r = negb (bool_decide (_phase r = PHASE_UNSENT))
              && negb (bool_decide (_phase r = PHASE_CANCELLED)).
Proof.
  exact (reachable_phases hasValidPreStartPhase_spec handleStart_spec
           [(REQUEST_TYPE, Example.request_by_bob)] Scenario.requested_by_bob
           reachable_requested_by_bob).
Defined.

(** Bob's request is on record once handled. *)
Lemma handled_event_is_on_record_witness :
  _getEventBy REQUEST_TYPE "@bob:example.org" Scenario.requested_by_bob
  = Some Example.request_by_bob.
Proof.
  apply (handled_event_is_on_record handleStart_spec REQUEST_TYPE Example.request_by_bob
           true Example.fresh).
  right. reflexivity.
Defined.

(** Alice's ready and Bob's cancel after Bob's request, in both orders. *)
Lemma delivery_order_is_irrelevant_witness :
  let r12 := handleEvents handleStart_spec
               [(READY_TYPE, Example.ready_by_alice, true);
                (CANCEL_TYPE, Example.cancel_by_bob, true)] Scenario.requested_by_bob in
  let r21 := handleEvents handleStart_spec
               [(CANCEL_TYPE, Example.cancel_by_bob, true);
                (READY_TYPE, Example.ready_by_alice, true)] Scenario.requested_by_bob in
  _phase r12 = _phase r21 ∧
  ∀ k sender, _getEventBy k sender r12 = _getEventBy k sender r21.
Proof.
  apply (delivery_order_is_irrelevant hasValidPreStartPhase_spec handleStart_spec
           [(REQUEST_TYPE, Example.request_by_bob)] Scenario.requested_by_bob
           READY_TYPE Example.ready_by_alice true CANCEL_TYPE Example.cancel_by_bob true).
  - exact reachable_requested_by_bob.
  - apply accepted_example. vm_compute. reflexivity.
  - apply accepted_example. vm_compute. reflexivity.
  - left. intros E. vm_compute in E. discriminate E.
Defined.

(** Bob's start message on a new request of a channel that opens no
    request with a start message. *)
Lemma start_on_new_request_witness :
  let r := snd (handleEvent handleStart_spec START_TYPE Example.start_by_bob true
                  Example.fresh) in
  _phase r = PHASE_UNSENT ∧ emitted r = [] ∧ _verifier r = None ∧ started r = false.
Proof.
  apply (start_on_new_request handleStart_spec Example.to_bob Example.registry Example.alice
           Example.start_by_bob true).
  - apply accepted_example. vm_compute. reflexivity.
  - right. reflexivity.
Defined.

(** Bob's request and the ready message of Alice's phone, both live. *)
Lemma active_party_after_pair_witness :
  let r := handleEvents handleStart_spec
             [(REQUEST_TYPE, Example.request_by_bob, true);
              (READY_TYPE, Example.ready_by_alice, true)] Example.fresh in
  _phase r = PHASE_READY ∧ _observeOnly r = false ∧ _verifier r = None.
Proof.
  intros r.
  assert (_phase r = PHASE_READY) as Hp by (vm_compute; reflexivity).
  destruct (active_party_after_pair hasValidPreStartPhase_spec handleStart_spec
              Example.to_bob Example.registry Example.alice
              Example.request_by_bob Example.ready_by_alice true true) as (Ho & _ & Hv).
  - apply accepted_example. vm_compute. reflexivity.
  - apply accepted_example. vm_compute. reflexivity.
  - exact Hp.
  - split; [exact Hp|]. split; [exact Ho|exact Hv].
Defined.

(** Alice asked, Bob answered with a ready message, and then a request
    message of Bob's arrives: the phase is Requested again. *)
Lemma phase_goes_back_witness :
  let r := Scenario.readied_by_bob in
  let r' := snd (handleEvent handleStart_spec REQUEST_TYPE Example.request_by_bob true r) in
  _phase r = PHASE_READY ∧
  _phase r' = PHASE_REQUESTED ∧ emitted r' = "change" :: emitted r.
Proof.
  intros r r'.
  assert (_phase r = PHASE_READY) as Hp by (vm_compute; reflexivity).
  split; [exact Hp|].
  apply (phase_goes_back hasValidPreStartPhase_spec handleStart_spec
           [(READY_TYPE, Scenario.ready_by_bob);
            (REQUEST_TYPE, Example.request_by_alices_phone)]
           r Example.request_by_bob true).
  - exact reachable_readied_by_bob.
  - exact Hp.
  - vm_compute. reflexivity.
  - vm_compute. reflexivity.
  - apply accepted_example. vm_compute. reflexivity.
  - intros E. vm_compute in E. discriminate E.
  - vm_compute. reflexivity.
Defined.

Lemma reachable_requested_as_is :
  reachable hasValidPreStartPhase_undefined handleStart_undefined
    [(REQUEST_TYPE, Example.request_by_bob)] Scenario.requested_as_is.
Proof.
  apply (reachable_call _ _ [] Example.fresh (Some (REQUEST_TYPE, Example.request_by_bob))).
  - apply reachable_new.
  - apply call_handleEvent, accepted_example. vm_compute. reflexivity.
Defined.

(** After Bob's request, on the class as it stands: there is no
    verifier, and starting the one negotiated method with Bob's laptop
    throws a TypeError. *)
Lemma verifier_is_never_created_witness :
  let r := Scenario.requested_as_is in
  (_phase r = PHASE_REQUESTED ∧ _observeOnly r = false ∧ _commonMethods r = ["m.sas.v1"]) ∧
  _verifier r = None ∧
  beginKeyVerification hasValidPreStartPhase_undefined "m.sas.v1"
    (Some Example.bobs_laptop) r = (Thrown TypeError, r).
Proof.
  intros r. split; [vm_compute; repeat split|].
  destruct (verifier_is_never_created handleStart_undefined
              [(REQUEST_TYPE, Example.request_by_bob)] r reachable_requested_as_is)
    as [Hv Hb].
  split; [exact Hv|]. exact (Hb "m.sas.v1" (Some Example.bobs_laptop)).
Defined.

(** After Bob's request: a verifier for Bob's laptop, and none without a
    device to address. *)
Lemma createVerifier_without_start_witness :
  let r := Scenario.requested_as_is in
  _createVerifier (Some "m.sas.v1") None (Some Example.bobs_laptop) r
  = Returned (Some (new_verifier "m.sas.v1" Scenario.sas "@bob:example.org"
                      (Some "BOBLAPTOP") None)) ∧
  _createVerifier (Some "m.sas.v1") None None r = Thrown NoTargetError.
Proof.
  intros r. split.
  - exact (createVerifier_without_start hasValidPreStartPhase_undefined
             handleStart_undefined [(REQUEST_TYPE, Example.request_by_bob)] r
             "m.sas.v1" (Some Example.bobs_laptop) reachable_requested_as_is).
  - exact (createVerifier_without_start hasValidPreStartPhase_undefined
             handleStart_undefined [(REQUEST_TYPE, Example.request_by_bob)] r
             "m.sas.v1" None reachable_requested_as_is).
Defined.

(** The verifier for Bob's start message is bound to Bob's laptop. *)
Lemma createVerifier_for_start_witness :
  _createVerifier (Some "m.sas.v1") (Some Example.start_by_bob) None Scenario.requested_by_bob
  = Returned (Some (new_verifier "m.sas.v1" Scenario.sas "@bob:example.org"
                      (Some "BOBLAPTOP") (Some Example.start_by_bob))).
Proof.
  apply (createVerifier_for_start hasValidPreStartPhase_spec handleStart_spec
           [(REQUEST_TYPE, Example.request_by_bob)] Scenario.requested_by_bob
           "m.sas.v1" Scenario.sas Example.start_by_bob).
  - exact reachable_requested_by_bob.
  - vm_compute. reflexivity.
Defined.

(** Alice declines Bob's request, and her cancel message comes back. *)
Lemma local_cancel_then_echo_witness :
  let r1 := snd (cancel "User declined" "m.user" Scenario.requested_by_bob) in
  let r2 := snd (handleEvent handleStart_spec CANCEL_TYPE Scenario.cancel_by_alice true r1) in
  List.map out_type (sent (channel r1)) = [CANCEL_TYPE] ∧
  _phase r1 = PHASE_REQUESTED ∧
  _phase r2 = PHASE_CANCELLED ∧
  _cancellingUserId r2 = Some "@alice:example.org".
Proof.
  intros r1 r2.
  destruct (local_cancel_then_echo handleStart_spec Scenario.requested_by_bob
              "User declined" "m.user" Scenario.cancel_by_alice true)
    as (Hsent & Hp1 & Hp2 & Hc).
  - vm_compute. reflexivity.
  - vm_compute. reflexivity.
  - intros E. vm_compute in E. discriminate E.
  - vm_compute. reflexivity.
  - fold r1 in Hsent, Hp1. fold r2 in Hp2, Hc.
    split; [by rewrite Hsent|]. split; [by rewrite Hp1|]. split; [exact Hp2|exact Hc].
Defined.

(** Alice sends the request from her phone and sees it come back. *)
Lemma sendRequest_then_echo_witness :
  let r1 := snd (sendRequest Example.fresh) in
  let r2 := snd (handleEvent handleStart_spec REQUEST_TYPE Example.request_by_alices_phone
                   true r1) in
  _phase r2 = PHASE_REQUESTED ∧ _observeOnly r2 = false ∧ _commonMethods r2 = [] ∧
  accept r2 = (Returned tt, r2).
Proof.
  apply (sendRequest_then_echo handleStart_spec Example.to_bob Example.registry Example.alice
           Example.request_by_alices_phone
           (mkContent (Some ["m.sas.v1"]) (Some "ALICEPHONE") None None None) ["m.sas.v1"]);
    reflexivity.
Defined.

(** Alice accepts Bob's request for a method she does not support: the
    ready message still lists her registry. *)
Lemma accept_after_their_request_witness :
  let r := snd (handleEvent handleStart_spec REQUEST_TYPE Example.qr_request_by_bob true
                  Example.fresh) in
  let r' := snd (accept r) in
  sent (channel r') =
    [mkOutbound READY_TYPE (mkContent (Some ["m.sas.v1"]) None None None None)] ∧
  _phase r' = PHASE_REQUESTED ∧
  _commonMethods r' = [].
Proof.
  apply (accept_after_their_request handleStart_spec Example.to_bob Example.registry
           Example.alice Example.qr_request_by_bob
           (mkContent (Some ["m.qr_code.show.v1"]) (Some "BOBLAPTOP") None None None)
           ["m.qr_code.show.v1"]).
  - intros E. vm_compute in E. discriminate E.
  - reflexivity.
  - reflexivity.
  - reflexivity.
Defined.

(** A start message without content makes [validateEvent] throw. *)
Lemma validateEvent_throws_iff_witness :
  validateEvent 0 START_TYPE Scenario.start_without_content None Example.alice
  = Thrown TypeError.
Proof.
  apply (validateEvent_throws_iff 0 START_TYPE Scenario.start_without_content None
           Example.alice TypeError).
  split; [reflexivity|]. split; [reflexivity|]. right. right. reflexivity.
Defined.

(** A request listing no method at all is accepted. *)
Lemma validateEvent_content_checks_witness :
  validateEvent 0 REQUEST_TYPE Scenario.request_without_methods None Example.alice
  = Returned true.
Proof.
  apply (validateEvent_content_checks 0 REQUEST_TYPE Scenario.request_without_methods
           Example.alice).
  split; [reflexivity|].
  split; intros _.
  - exists (mkContent (Some []) (Some "BOBLAPTOP") None None None), []. split; reflexivity.
  - exists (mkContent (Some []) (Some "BOBLAPTOP") None None None), "BOBLAPTOP".
    split; [reflexivity|]. split; [reflexivity|]. intros E. discriminate E.
Defined.
